(** * chisel: the server-side session core

    A shallow embedding of the server side of the tunnelling proxy:

    - [chserver]: [server/server.go] ([authUser], [handleClientHandler],
      [handleWebsocket], [handleSSHRequests], [handleSSHChannels],
      [handleSocksStream]);
    - [ProxySSHSession]: [share/server_session.go] ([runWithSSHConn],
      [Run], [handleSSHRequests], [handleSSHNewChannel],
      [handleSSHChannels]);
    - [SSHSession]: the generic session of [share] ([handleSSHNewChannel],
      [handleSSHChannels]).

    Every handler is a function from the server value and the answers of
    the outside world (what the peer sends, what a library call returns)
    to the new server value and the trace of calls the handler makes, in
    program order.  A goroutine started with [go] appears in the trace of
    its parent as one [EvGo] event that carries the trace of its body. *)

From Stdlib Require Import ZArith Lia.
From stdpp Require Import base strings list gmap.

Local Open Scope string_scope.
Local Open Scope list_scope.

(** ** Data model (package chshare) *)

(** [PbEndpointRole] of the protocol description: UNKNOWN=0, STUB=1,
    SKELETON=2. *)
Inductive ChannelEndpointRole : Type :=
| ChannelEndpointRoleUnknown
| ChannelEndpointRoleStub
| ChannelEndpointRoleSkeleton.

#[global] Instance ChannelEndpointRole_eq_dec : EqDecision ChannelEndpointRole.
Proof. solve_decision. Defined.

(** The endpoint type travels as a string ([string Type = 2]). *)
Definition ChannelEndpointType : Type := string.

(** Modelled from the spec: the endpoint type tokens, declared outside the
    listed sources.  The spec enumerates TCP, Unix, Socks, Stdio and Loop
    and spells the tokens of the client command line [socks], [stdio] and
    [loop]. *)
Definition ChannelEndpointTypeTCP : ChannelEndpointType := "tcp".
Definition ChannelEndpointTypeUnix : ChannelEndpointType := "unix".
Definition ChannelEndpointTypeSocks : ChannelEndpointType := "socks".
Definition ChannelEndpointTypeStdio : ChannelEndpointType := "stdio".
Definition ChannelEndpointTypeLoop : ChannelEndpointType := "loop".

(** [PbEndpointDescriptor]. *)
Record ChannelEndpointDescriptor : Type := mkEpd {
  Role : ChannelEndpointRole;
  Type_ : ChannelEndpointType;
  Path : string
}.

(** [PbChannelDescriptor]. *)
Record ChannelDescriptor : Type := mkChd {
  Reverse : bool;
  Stub : ChannelEndpointDescriptor;
  Skeleton : ChannelEndpointDescriptor
}.

(** [PbSessionConfigRequest]. *)
Record SessionConfigRequest : Type := mkConfig {
  Version : string;
  ChannelDescriptors : list ChannelDescriptor
}.

(** A logger is known by how it was made: [NewLogger prefix], or
    [parent.Fork(format, id)]. *)
Inductive Logger : Type :=
| NewLogger (name : string)
| Fork (parent : Logger) (format : string) (ids : list Z).

(** [ssh.RejectionReason]. *)
Inductive RejectionReason : Type :=
| Prohibited
| ConnectionFailed
| UnknownChannelType
| ResourceShortage.

(** Error values are kept as the call that built them, so that no
    assumption is made on how a logger renders its prefix. *)
Inductive error : Type :=
| ErrExternal (msg : string)
| ErrorsNew (msg : string)
| Errorf (l : Logger) (format : string) (args : list fmtarg)
| DebugErrorf (l : Logger) (format : string) (args : list fmtarg)
with fmtarg : Type :=
| ArgS (s : string)
| ArgZ (n : Z)
| ArgE (e : error)
| ArgEpd (d : ChannelEndpointDescriptor)        (* d.String() *)
| ArgEpdLong (d : ChannelEndpointDescriptor)    (* d.LongString() *)
| ArgChd (d : ChannelDescriptor)                (* d.String() *)
| ArgChdLong (d : ChannelDescriptor)            (* d.LongString() *)
| ArgReason (r : RejectionReason).

(** A byte string handed to the peer: a literal, the text [err.Error()] of
    an error, or [fmt.Sprintf]. *)
Inductive text : Type :=
| Lit (s : string)
| ErrorText (e : error)
| Sprintf (format : string) (args : list fmtarg).

(** [LocalChannelEnv]: what a skeleton endpoint may ask of the process it
    runs in. *)
Record LocalChannelEnv : Type := mkEnv {
  IsServer : bool;
  GetLoopServer : bool;
  GetSocksServer : bool
}.

(** What this program uses and does not define: functions of the Go
    standard library, and declarations of the repository that lie outside
    the listed sources. *)
Class Externals : Type := {
  (** [*regexp.Regexp] and [Regexp.MatchString] *)
  Regexp : Type;
  MatchString : Regexp -> string -> bool;
  (** [strings.ToLower] *)
  ToLower : string -> string;
  (** [json.Unmarshal] into a [ChannelEndpointDescriptor]; [None] is a
      non-nil error *)
  Unmarshal : string -> option ChannelEndpointDescriptor;
  (** [chshare.ProtocolVersion] and [chshare.BuildVersion] *)
  ProtocolVersion : string;
  BuildVersion : string;
  (** [chshare.DecodeConfig], [SessionConfigRequest.Unmarshal] *)
  DecodeConfig : string -> error + SessionConfigRequest;
  (** [ChannelDescriptor.String]: the textual form of a route *)
  ChannelDescriptor_String : ChannelDescriptor -> string;
  (** [NewLocalSkeletonChannelEndpoint] *)
  LocalSkeletonChannelEndpoint : Type;
  NewLocalSkeletonChannelEndpoint :
    Logger -> LocalChannelEnv -> ChannelEndpointDescriptor ->
    error + LocalSkeletonChannelEndpoint
}.

Section Model.
Context `{Ext : Externals}.

(** [chshare.User]. *)
Record User : Type := mkUser {
  Name : string;
  Pass : string;
  Addrs : list Regexp
}.

(** Modelled from the spec: [User.HasAccess], declared outside the listed
    sources.  "A user has access to a route iff at least one regex matches
    the route's textual form." *)
Definition HasAccess (u : User) (addr : string) : bool :=
  existsb (fun r => MatchString r addr) (Addrs u).

(** [chserver.Server] (and the [Server] of package chshare that
    [ProxySSHSession] points to): the fields the handlers read or write.
    [users] is the user index, keyed by user name, and [sessions] the
    session-to-user map, keyed by SSH session id.  [chshare.Users] and
    [chshare.UserIndex] are declared outside the listed sources; their
    [Len], [Get], [Set] and [Del] are taken to be the size, lookup, insert
    and delete of a finite map. *)
Record Server : Type := mkServer {
  logger : Logger;
  users : gmap string User;
  sessions : gmap string User;
  sessCount : Z;
  reverseProxy : option string;
  socksServer : bool;
  loopServer : bool;
  reverseOk : bool
}.

Definition set_sessions (m : gmap string User) (s : Server) : Server :=
  mkServer (logger s) (users s) m (sessCount s) (reverseProxy s)
           (socksServer s) (loopServer s) (reverseOk s).

Definition set_sessCount (n : Z) (s : Server) : Server :=
  mkServer (logger s) (users s) (sessions s) n (reverseProxy s)
           (socksServer s) (loopServer s) (reverseOk s).

(** [atomic.AddInt32]: two's complement wrap-around on 32 bits. *)
Definition wrap32 (n : Z) : Z := (n + 2 ^ 31) mod 2 ^ 32 - 2 ^ 31.
Definition AddInt32 (n delta : Z) : Z := wrap32 (n + delta).

(** ** The outside world *)

(** [*ssh.Request] *)
Record Request : Type := mkRequest {
  ReqType : string;
  Payload : string
}.

(** What the first receive on the request stream yields. *)
Inductive Recv : Type :=
| RecvReq (r : Request)
| RecvNil                      (* the stream was closed: a nil request *)
| RecvTimeout.                 (* the 10 second timer fired first *)

(** [ssh.NewChannel], with what the library will answer to the calls made
    on it and on what is built from it. *)
Record NewChannel : Type := mkNewChannel {
  ExtraData : string;
  AcceptErr : option error;            (* ch.Accept() *)
  ConnID : Z;                          (* s.connStats.New() *)
  WrapErr : option error;              (* NewSSHConn(logger, sshChannel) *)
  ServeErr : option string;            (* socksServer.ServeConn(conn) *)
  DialAndServeResult : Z * Z * option error   (* ep.DialAndServe(...) *)
}.

Inductive Level : Type := Info | Debug.

#[warnings="-register-all"]
Inductive Event : Type :=
| EvLog (lvl : Level) (l : Logger) (format : string) (args : list fmtarg)
(* HTTP *)
| EvProxyServeHTTP (target : string)
| EvWrite (body : string)
| EvWriteHeader (status : Z)
| EvUpgrade (res : option error)
(* control requests *)
| EvReply (r : Request) (ok : bool) (payload : option text)
| EvSSHClose
| EvSSHWait
| EvCancel
| EvCloseDone
| EvPanic
| EvProxyStart (i : nat) (chd : ChannelDescriptor) (res : option error)
(* channels *)
| EvReject (ch : NewChannel) (reason : RejectionReason) (msg : text)
| EvAccept (ch : NewChannel) (res : option error)
| EvChannelClose (ch : NewChannel)
| EvEndpointClose (ep : LocalSkeletonChannelEndpoint)
| EvDialAndServe (ep : LocalSkeletonChannelEndpoint) (ch : NewChannel)
                 (res : Z * Z * option error)
| EvHandleTCPStream (l : Logger) (ch : NewChannel) (path : string)
| EvServeConn (ch : NewChannel) (res : option string)
| EvConnStats (method : string)
| EvGo (name : string) (body : list Event).

Definition is_log (e : Event) : bool :=
  match e with EvLog _ _ _ _ => true | _ => false end.

(** The calls of a trace, log lines left out. *)
Definition calls (tr : list Event) : list Event :=
  List.filter (fun e => negb (is_log e)) tr.

End Model.

(** The program's text constants with a line feed. *)
Definition LF : string := String (Ascii.ascii_of_nat 10) "".

(** [strings.HasPrefix] and [strings.HasSuffix]. *)
Definition HasPrefix (s pre : string) : bool := String.prefix pre s.
Definition HasSuffix (s suf : string) : bool :=
  Nat.leb (String.length suf) (String.length s)
  && String.eqb
       (String.substring (String.length s - String.length suf)
          (String.length suf) s)
       suf.

(** ** server/server.go *)
Module chserver.
Section Handlers.
Context `{Ext : Externals}.

(** [ssh.ConnMetadata], as far as [authUser] reads it. *)
Record ConnMetadata : Type := mkConnMetadata {
  ConnUser : string;                   (* c.User() *)
  SessionID : string                   (* string(c.SessionID()) *)
}.

(** [Server.authUser]: the SSH password callback.  A [None] error is an
    accepted login. *)
Definition authUser (s : Server) (c : ConnMetadata) (password : string)
  : Server * list Event * option error :=
  if Nat.eqb (size (users s)) 0 then (s, [], None)
  else
    let n := ConnUser c in
    match users s !! n with
    | Some user =>
        if negb (String.eqb (Pass user) password) then
          (s, [EvLog Debug (logger s) "Login failed for user: %s" [ArgS n]],
           Some (ErrorsNew "Invalid authentication for username: %s"))
        else
          (set_sessions (<[SessionID c := user]> (sessions s)) s, [], None)
    | None =>
        (s, [EvLog Debug (logger s) "Login failed for user: %s" [ArgS n]],
         Some (ErrorsNew "Invalid authentication for username: %s"))
    end.

(** What the peer does during the SSH handshake. *)
Record Handshake : Type := mkHandshake {
  Meta : ConnMetadata;
  Attempts : list string;              (* the passwords it presents *)
  TransportErr : option error          (* a failure of the transport *)
}.

(** [ssh.NewServerConn] as this program observes it: the library hands
    each password the peer presents to the [PasswordCallback], in turn,
    until one is accepted. *)
Fixpoint passwordAuth (s : Server) (c : ConnMetadata) (attempts : list string)
  : Server * list Event * bool :=
  match attempts with
  | [] => (s, [], false)
  | password :: rest =>
      match authUser s c password with
      | (s', tr, None) => (s', tr, true)
      | (s', tr, Some _) =>
          let '(s'', tr', ok) := passwordAuth s' c rest in
          (s'', tr ++ tr', ok)
      end
  end.

Definition NewServerConn (s : Server) (h : Handshake)
  : Server * list Event * option error :=
  let '(s', tr, ok) := passwordAuth s (Meta h) (Attempts h) in
  if ok then (s', tr, TransportErr h)
  else (s', tr, Some (ErrExternal "ssh: unable to authenticate")).

(** Everything the outside world contributes to one run of
    [handleWebsocket]. *)
Record WsInput : Type := mkWsInput {
  UpgradeErr : option error;           (* upgrader.Upgrade(w, req, nil) *)
  Peer : Handshake;
  First : Recv;                        (* the select on reqs and the timer *)
  LaterReqs : list Request;            (* what else arrives on reqs *)
  Chans : list NewChannel;             (* what arrives on chans *)
  ProxyStartErr : nat -> option error  (* proxy.Start(ctx) of route i *)
}.

(** [Server.handleSSHRequests] *)
Fixpoint handleSSHRequests (clientLog : Logger) (reqs : list Request)
  : list Event :=
  match reqs with
  | [] => []
  | r :: rest =>
      (if String.eqb (ReqType r) "ping" then [EvReply r true None]
       else [EvLog Debug clientLog "Unknown request: %s" [ArgS (ReqType r)];
             EvReply r false
               (Some (Sprintf "Unknown request type: %s" [ArgS (ReqType r)]))])
      ++ handleSSHRequests clientLog rest
  end.

(** [Server.handleSocksStream] *)
Definition handleSocksStream (l : Logger) (ch : NewChannel) : list Event :=
  [EvConnStats "Open";
   EvLog Debug l "%s Opening" [ArgS "connStats"];
   EvServeConn ch (ServeErr ch);
   EvConnStats "Close";
   match ServeErr ch with
   | Some err =>
       if negb (HasSuffix err "EOF")
       then EvLog Debug l "%s: Closed (error: %s)" [ArgS "connStats"; ArgS err]
       else EvLog Debug l "%s: Closed" [ArgS "connStats"]
   | None => EvLog Debug l "%s: Closed" [ArgS "connStats"]
   end].

(** [Server.handleSSHChannels]: the loop over the inbound channel opens;
    every [continue] ends the iteration. *)
Fixpoint handleSSHChannels (s : Server) (clientLog : Logger)
    (chans : list NewChannel) : list Event :=
  match chans with
  | [] => []
  | ch :: rest =>
    let epdJSON := ExtraData ch in
    (match Unmarshal epdJSON with
     | None =>
         [EvLog Debug clientLog
            "Error: Remote channel connect request: bad JSON parameter string: '%s'"
            [ArgS epdJSON];
          EvReject ch UnknownChannelType (Lit "Bad JSON ExtraData")]
     | Some epd =>
         EvLog Debug clientLog "Remote channel connect request, endpoint ='%s'"
           [ArgEpdLong epd] ::
         if negb (bool_decide (Role epd = ChannelEndpointRoleSkeleton)) then
           [EvLog Debug clientLog
              "Error: Remote channel connect request: Role must be skeleton: '%s'"
              [ArgEpdLong epd];
            EvReject ch Prohibited (Lit "Role must be skeleton")]
         else if String.eqb (Type_ epd) ChannelEndpointTypeStdio then
           [EvLog Debug clientLog
              "Error: Remote channel connect request: Server-side skeleton STDIO not supported: '%s'"
              [ArgEpdLong epd];
            EvReject ch Prohibited (Lit "Server-side STDIO not supported")]
         else if String.eqb (Type_ epd) ChannelEndpointTypeLoop then
           [EvLog Debug clientLog
              "Error: Remote channel connect request: Loop channels not yet not supported: '%s'"
              [ArgEpdLong epd];
            EvReject ch Prohibited (Lit "Loop channels not yet supported")]
         else if String.eqb (Type_ epd) ChannelEndpointTypeUnix then
           [EvLog Debug clientLog
              "Error: Remote channel connect request: Unix domain sockets not yet not supported: '%s'"
              [ArgEpdLong epd];
            EvReject ch Prohibited (Lit "Unix domain sockets not yet supported")]
         else
           let socks := String.eqb (Type_ epd) ChannelEndpointTypeSocks in
           if socks && negb (socksServer s) then
             [EvLog Debug clientLog
                "Denied socks request, please enable --socks5" [];
              EvReject ch Prohibited (Lit "SOCKS5 is not enabled on the server")]
           else
             match AcceptErr ch with
             | Some err =>
                 [EvAccept ch (Some err);
                  EvLog Debug clientLog "Failed to accept stream: %s" [ArgE err]]
             | None =>
                 let connID := ConnID ch in
                 [EvAccept ch None;
                  EvGo "ssh.DiscardRequests" [];
                  EvConnStats "New";
                  if socks then
                    EvGo "handleSocksStream"
                      (handleSocksStream
                         (Fork clientLog "socksconn#%d" [connID]) ch)
                  else
                    EvGo "chshare.HandleTCPStream"
                      [EvHandleTCPStream (Fork clientLog "conn#%d" [connID])
                         ch (Path epd)]]
             end
     end) ++ handleSSHChannels s clientLog rest
  end.

(** The closure [failed] of [handleWebsocket]. *)
Definition failed (clog : Logger) (r : Request) (err : error) : list Event :=
  [EvLog Debug clog "Failed: %s" [ArgE err];
   EvReply r false (Some (ErrorText err))].

(** The last loop of [handleWebsocket], which starts a stub listener for
    every reverse route, from route index [i] on.  The boolean tells
    whether the loop ran to its end ([true]) or returned from
    [handleWebsocket] ([false]). *)
Fixpoint startReverse (s : Server) (clog : Logger) (r : Request)
    (startErr : nat -> option error) (i : nat) (cds : list ChannelDescriptor)
  : list Event * bool :=
  match cds with
  | [] => ([], true)
  | chd :: rest =>
      let line := EvLog Debug clog "%s" [ArgChdLong chd] in
      if Reverse chd then
        match startErr i with
        | Some err =>
            (line :: EvProxyStart i chd (Some err)
               :: failed clog r (Errorf (logger s) "%s" [ArgE err]), false)
        | None =>
            let '(tr, ok) := startReverse s clog r startErr (S i) rest in
            (line :: EvProxyStart i chd None :: tr, ok)
        end
      else
        let '(tr, ok) := startReverse s clog r startErr (S i) rest in
        (line :: tr, ok)
  end.

(** [Server.handleWebsocket] *)
Definition handleWebsocket (s : Server) (inp : WsInput) : Server * list Event :=
  let id := AddInt32 (sessCount s) 1 in
  let s := set_sessCount id s in
  let clog := Fork (logger s) "session#%d" [id] in
  let tr0 := [EvLog Debug clog "Upgrading to websocket" [];
              EvUpgrade (UpgradeErr inp)] in
  match UpgradeErr inp with
  | Some err =>
      (s, tr0 ++ [EvLog Debug clog "Failed to upgrade (%s)" [ArgE err]])
  | None =>
  let '(s, htr, herr) := NewServerConn s (Peer inp) in
  let tr1 := tr0 ++ EvLog Debug clog "Handshaking..." [] :: htr in
  match herr with
  | Some err =>
      (s, tr1 ++ [EvLog Debug (logger s) "Failed to handshake (%s)" [ArgE err]])
  | None =>
  (* pull the users from the session map *)
  let sid := SessionID (Meta (Peer inp)) in
  let '(s, user) :=
    if Nat.ltb 0 (size (users s))
    then (set_sessions (delete sid (sessions s)) s, sessions s !! sid)
    else (s, None) in
  let tr2 := tr1 ++ [EvLog Debug clog "Verifying configuration" []] in
  match First inp with
  | RecvTimeout => (s, tr2 ++ [EvSSHClose])
  | RecvNil => (s, tr2 ++ [EvPanic])
  | RecvReq r =>
  if negb (String.eqb (ReqType r) "config") then
    (s, tr2 ++ failed clog r (Errorf (logger s) "expecting config request" []))
  else
  match DecodeConfig (Payload r) with
  | inl _ => (s, tr2 ++ failed clog r (Errorf (logger s) "invalid config" []))
  | inr c =>
  let tr3 :=
    tr2 ++
    (if negb (String.eqb (Version c) BuildVersion) then
       let v := if String.eqb (Version c) "" then "<unknown>" else Version c in
       [EvLog Info clog "Client version (%s) differs from server version (%s)"
          [ArgS v; ArgS BuildVersion]]
     else []) in
  (* confirm reverse tunnels are allowed *)
  if existsb (fun chd => Reverse chd && negb (reverseOk s))
       (ChannelDescriptors c)
  then
    (s, tr3 ++
        EvLog Debug clog
          "Denied reverse port forwarding request, please enable --reverse" []
        :: failed clog r
             (Errorf (logger s) "Reverse port forwaring not enabled on server" []))
  else
  (* if user is provided, ensure they have access to the desired remotes *)
  match
    match user with
    | Some u =>
        List.find
          (fun chd => negb (HasAccess u (ChannelDescriptor_String chd)))
          (ChannelDescriptors c)
    | None => None
    end
  with
  | Some chd =>
      (s, tr3 ++ failed clog r
                   (Errorf (logger s) "access to '%s' denied"
                      [ArgS (ChannelDescriptor_String chd)]))
  | None =>
  (* set up reverse port forwarding *)
  let '(tr4, ok) :=
    startReverse s clog r (ProxyStartErr inp) 0 (ChannelDescriptors c) in
  if negb ok then (s, tr3 ++ tr4 ++ [EvCancel])
  else
    (s, tr3 ++ tr4 ++
        [EvReply r true None;
         EvLog Debug clog "Open" [];
         EvGo "handleSSHRequests" (handleSSHRequests clog (LaterReqs inp));
         EvGo "handleSSHChannels" (handleSSHChannels s clog (Chans inp));
         EvSSHWait;
         EvLog Debug clog "Close" [];
         EvCancel])
  end end end end end.

(** [*http.Request], as far as [handleClientHandler] reads it. *)
Record HTTPRequest : Type := mkHTTPRequest {
  Upgrade : string;                    (* r.Header.Get("Upgrade") *)
  SecWebSocketProtocol : string;       (* r.Header.Get("Sec-WebSocket-Protocol") *)
  URL : string                         (* r.URL.String() *)
}.

(** [Server.handleClientHandler] *)
Definition handleClientHandler (s : Server) (r : HTTPRequest) (inp : WsInput)
  : Server * list Event :=
  let upgrade := ToLower (Upgrade r) in
  let protocol := SecWebSocketProtocol r in
  let rest :=
    match reverseProxy s with
    | Some target => [EvProxyServeHTTP target]
    | None =>
        if String.eqb (URL r) "/health" then [EvWrite ("OK" ++ LF)]
        else if String.eqb (URL r) "/version" then [EvWrite BuildVersion]
        else [EvWriteHeader 404; EvWrite "Not found"]
    end in
  if String.eqb upgrade "websocket" && HasPrefix protocol "xevo-chisel-" then
    if String.eqb protocol ProtocolVersion then handleWebsocket s inp
    else
      (s, EvLog Info (logger s)
            "ignored client connection using protocol '%s', expected '%s'"
            [ArgS protocol; ArgS ProtocolVersion] :: rest)
  else (s, rest).

End Handlers.
End chserver.

(** A double quote, for the format strings that contain one. *)
Definition DQ : string := String (Ascii.ascii_of_nat 34) "".

(** [context.DeadlineExceeded] and [context.Canceled]. *)
Definition DeadlineExceeded : error := ErrExternal "context deadline exceeded".
Definition Canceled : error := ErrExternal "context canceled".

(** How a call ends: it returns an error value (or nil), or it panics. *)
Inductive outcome : Type :=
| Return (err : option error)
| Panic.

(** What a receive guarded by a context yields. *)
Inductive CtxRecv : Type :=
| CtxReq (r : Request)
| CtxNil                       (* the stream was closed: a nil value *)
| CtxDone (err : error).       (* ctx.Done() fired first; [err] is ctx.Err() *)

(** Everything the outside world contributes to one run of a session of
    [share/server_session.go]. *)
Record SessionInput `{Ext : Externals} : Type := mkSessionInput {
  SPeer : chserver.Handshake;
  SFirst : CtxRecv;                    (* receiveSSHRequest(cfgCtx) *)
  SReplyErr : option error;            (* the send of the config reply *)
  SStartErr : nat -> option error;     (* proxy.Start(subCtx) of route i *)
  SLaterReqs : list (Request * option error);
  SReqsEnd : option error;             (* Some: ctx.Done() ended the loop *)
  SChans : list NewChannel;
  SChansEnd : option error;
  SWaitErr : option error              (* sshConn.Wait() *)
}.

(** ** share/server_session.go *)
Module ProxySSHSession.
Section Handlers.
Context `{Ext : Externals}.

Record ProxySSHSession : Type := mkProxySSHSession {
  Logger_ : Logger;
  server : Server;
  id : Z
}.

(** [AllocSSHSessionID], on the counter [LastSSHSessionID]. *)
Definition AllocSSHSessionID (LastSSHSessionID : Z) : Z * Z :=
  let id := AddInt32 LastSSHSessionID 1 in (id, id).

(** [NewServerSSHSession] *)
Definition NewServerSSHSession (LastSSHSessionID : Z) (srv : Server)
  : ProxySSHSession * Z :=
  let '(id, last) := AllocSSHSessionID LastSSHSessionID in
  (mkProxySSHSession (Fork (logger srv) "SSHSession#%d" [id]) srv id, last).

(** The session as a [LocalChannelEnv]: [IsServer], [GetLoopServer],
    [GetSocksServer]. *)
Definition env (s : ProxySSHSession) : LocalChannelEnv :=
  mkEnv true (loopServer (server s)) (socksServer (server s)).

Definition with_server (srv : Server) (s : ProxySSHSession) : ProxySSHSession :=
  mkProxySSHSession (Logger_ s) srv (id s).

(** [receiveSSHRequest]: [None] stands for a returned error. *)
Definition receiveSSHRequest (s : ProxySSHSession) (rcv : CtxRecv)
  : option Request + error :=
  match rcv with
  | CtxReq r => inl (Some r)
  | CtxNil => inl None
  | CtxDone err =>
      inr (DebugErrorf (Logger_ s) "SSH request not received: %s" [ArgE err])
  end.

(** [sendSSHReply]: the reply is sent from a goroutine of its own; [res]
    is what the select on its result and on the context yields. *)
Definition sendSSHReply (s : ProxySSHSession) (r : Request) (ok : bool)
    (payload : option text) (res : option error)
  : list Event * option error :=
  ([EvGo "r.Reply" [EvReply r ok payload]],
   match res with
   | Some err =>
       Some (DebugErrorf (Logger_ s) "SSH repy send failed: %s" [ArgE err])
   | None => None
   end).

(** [sendSSHErrorReply] *)
Definition sendSSHErrorReply (s : ProxySSHSession) (r : Request) (err : error)
    (res : option error) : list Event * option error :=
  let '(tr, e) := sendSSHReply s r false (Some (ErrorText err)) res in
  (EvLog Debug (Logger_ s) "Sending SSH error reply: %s" [ArgE err] :: tr, e).

(** The closure [failed] of [runWithSSHConn]: it sends the error reply,
    ignores whether that worked, and returns the error it was given. *)
Definition failed (s : ProxySSHSession) (r : Request) (res : option error)
    (err : error) : list Event * option error :=
  (fst (sendSSHErrorReply s r err res), Some err).

(** The last loop of [runWithSSHConn], from route index [i] on.  [Some
    err] is the error [runWithSSHConn] returns from inside the loop. *)
Fixpoint startReverse (s : ProxySSHSession) (r : Request)
    (res : option error) (startErr : nat -> option error) (i : nat)
    (cds : list ChannelDescriptor) : list Event * option error :=
  match cds with
  | [] => ([], None)
  | chd :: rest =>
      if Reverse chd then
        let line :=
          EvLog Debug (Logger_ s)
            "Reverse-mode route[%d] %s; starting stub listener"
            [ArgZ (Z.of_nat i); ArgChd chd] in
        match startErr i with
        | Some err =>
            let '(tr, e) :=
              failed s r res
                (DebugErrorf (Logger_ s) "Unable to start stub listener %s: %s"
                   [ArgChd chd; ArgE err]) in
            (line :: EvProxyStart i chd (Some err) :: tr, e)
        | None =>
            let '(tr, e) := startReverse s r res startErr (S i) rest in
            (line :: EvProxyStart i chd None :: tr, e)
        end
      else
        let '(tr, e) := startReverse s r res startErr (S i) rest in
        (EvLog Debug (Logger_ s)
           "Forward-mode route[%d] %s; connections will be created on demand"
           [ArgZ (Z.of_nat i); ArgChd chd] :: tr, e)
  end.

(** [ProxySSHSession.handleSSHRequests] *)
Fixpoint handleSSHRequests (s : ProxySSHSession)
    (reqs : list (Request * option error)) (fin : option error) : list Event :=
  match reqs with
  | [] =>
      match fin with
      | None => [EvLog Debug (Logger_ s) "End of incoming SSH request stream" []]
      | Some err =>
          [EvLog Debug (Logger_ s) "SSH request stream processing aborted: %s"
             [ArgE err]]
      end
  | (req, res) :: rest =>
      (if String.eqb (ReqType req) "ping" then
         let '(tr, e) := sendSSHReply s req true None res in
         tr ++ match e with
               | Some err =>
                   [EvLog Debug (Logger_ s)
                      "SSH ping reply send failed, ignoring: %s" [ArgE err]]
               | None => []
               end
       else
         let err := DebugErrorf (Logger_ s) "Unknown SSH request type: %s"
                      [ArgS (ReqType req)] in
         let '(tr, e) := sendSSHErrorReply s req err res in
         tr ++ match e with
               | Some err =>
                   [EvLog Debug (Logger_ s)
                      "SSH send reply for unknown request type failed, ignoring: %s"
                      [ArgE err]]
               | None => []
               end)
      ++ handleSSHRequests s rest fin
  end.

(** The closure [reject] of [handleSSHNewChannel]. *)
Definition reject (s : ProxySSHSession) (ch : NewChannel)
    (reason : RejectionReason) (err : error) : list Event * option error :=
  ([EvLog Debug (Logger_ s) "Sending SSH NewChannel rejection (reason=%v): %s"
      [ArgReason reason; ArgE err];
    EvReject ch reason (ErrorText err)], Some err).

(** [ProxySSHSession.handleSSHNewChannel] *)
Definition handleSSHNewChannel (s : ProxySSHSession) (ch : NewChannel)
  : list Event * option error :=
  let epdJSON := ExtraData ch in
  match Unmarshal epdJSON with
  | None =>
      reject s ch UnknownChannelType
        (Errorf (logger (server s)) "Badly formatted NewChannel request" [])
  | Some epd =>
  let tr0 := [EvLog Debug (Logger_ s) "SSH NewChannel request, endpoint ='%s'"
                [ArgEpd epd]] in
  match NewLocalSkeletonChannelEndpoint (Logger_ s) (env s) epd with
  | inl err =>
      let '(tr, e) := reject s ch Prohibited err in
      (tr0 ++ EvLog Debug (Logger_ s)
                "Failed to create skeleton endpoint for SSH NewChannel: %s"
                [ArgE err] :: tr, e)
  | inr ep =>
  match AcceptErr ch with
  | Some err =>
      (tr0 ++ [EvAccept ch (Some err);
               EvLog Debug (Logger_ s) "Failed to accept SSH NewChannel: %s"
                 [ArgE err];
               EvEndpointClose ep], Some err)
  | None =>
  let tr1 := tr0 ++ [EvAccept ch None; EvGo "ssh.DiscardRequests" []] in
  match WrapErr ch with
  | Some err =>
      (tr1 ++ [EvLog Debug (Logger_ s) "Failed wrap SSH NewChannel: %s"
                 [ArgE err];
               EvChannelClose ch;
               EvEndpointClose ep], Some err)
  | None =>
  let '(numSent, numReceived, err) := DialAndServeResult ch in
  (tr1 ++ [EvDialAndServe ep ch (DialAndServeResult ch);
           match err with
           | Some e =>
               EvLog Debug (Logger_ s)
                 "NewChannel session ended with error after %d bytes (caller->called), %d bytes (called->caller): %s"
                 [ArgZ numSent; ArgZ numReceived; ArgE e]
           | None =>
               EvLog Debug (Logger_ s)
                 "NewChannel session ended normally after %d bytes (caller->called), %d bytes (called->caller)"
                 [ArgZ numSent; ArgZ numReceived]
           end], err)
  end end end end.

(** [ProxySSHSession.handleSSHChannels]: every channel open is served by
    a goroutine of its own. *)
Fixpoint handleSSHChannels (s : ProxySSHSession) (chans : list NewChannel)
    (fin : option error) : list Event :=
  match chans with
  | [] =>
      match fin with
      | None =>
          [EvLog Debug (Logger_ s) "End of incoming SSH NewChannels stream" []]
      | Some err =>
          [EvLog Debug (Logger_ s)
             "SSH NewChannels stream processing aborted: %s" [ArgE err]]
      end
  | ch :: rest =>
      EvGo "handleSSHNewChannel" (fst (handleSSHNewChannel s ch))
        :: handleSSHChannels s rest fin
  end.

(** [ProxySSHSession.runWithSSHConn].  The deferred [subCtxCancel] runs at
    every return. *)
Definition runWithSSHConn (s : ProxySSHSession) (inp : SessionInput)
  : ProxySSHSession * list Event * outcome :=
  (* pull the users from the session map *)
  let sid := chserver.SessionID (chserver.Meta (SPeer inp)) in
  let '(s, user) :=
    if Nat.ltb 0 (size (users (server s)))
    then (with_server
            (set_sessions (delete sid (sessions (server s))) (server s)) s,
          sessions (server s) !! sid)
    else (s, None) in
  let tr0 := [EvLog Debug (Logger_ s) "Receiving configuration" []] in
  match receiveSSHRequest s (SFirst inp) with
  | inr err =>
      (s, tr0 ++ [EvCancel],
       Return (Some (DebugErrorf (Logger_ s) "receiveSSHRequest failed: %s"
                       [ArgE err])))
  | inl None =>
      (* r.Type on a nil request *)
      (s, tr0 ++ [EvLog Debug (Logger_ s) "Received SSH Req" [];
                  EvPanic; EvCancel], Panic)
  | inl (Some r) =>
  let tr1 := tr0 ++ [EvLog Debug (Logger_ s) "Received SSH Req" []] in
  if negb (String.eqb (ReqType r) "config") then
    let '(tr, e) :=
      failed s r (SReplyErr inp)
        (DebugErrorf (Logger_ s)
           ("Expecting " ++ DQ ++ "config" ++ DQ ++ " request, got "
              ++ DQ ++ "%s" ++ DQ)
           [ArgS (ReqType r)]) in
    (s, tr1 ++ tr ++ [EvCancel], Return e)
  else
  match DecodeConfig (Payload r) with
  | inl err =>
      let '(tr, e) :=
        failed s r (SReplyErr inp)
          (DebugErrorf (Logger_ s) "Invalid session config request encoding: %s"
             [ArgE err]) in
      (s, tr1 ++ tr ++ [EvCancel], Return e)
  | inr c =>
  let tr2 :=
    tr1 ++
    (if negb (String.eqb (Version c) BuildVersion) then
       let v := if String.eqb (Version c) "" then "<unknown>" else Version c in
       [EvLog Info (Logger_ s)
          "WARNING: Chisel Client version (%s) differs from server version (%s)"
          [ArgS v; ArgS BuildVersion]]
     else []) in
  (* confirm reverse tunnels are allowed *)
  if existsb (fun chd => Reverse chd && negb (reverseOk (server s)))
       (ChannelDescriptors c)
  then
    let '(tr, e) :=
      failed s r (SReplyErr inp)
        (DebugErrorf (Logger_ s)
           "Reverse port forwarding not enabled on server" []) in
    (s, tr2 ++ tr ++ [EvCancel], Return e)
  else
  (* if user is provided, ensure they have access to the desired remotes *)
  match
    match user with
    | Some u =>
        List.find
          (fun chd => negb (HasAccess u (ChannelDescriptor_String chd)))
          (ChannelDescriptors c)
    | None => None
    end
  with
  | Some chd =>
      let '(tr, e) :=
        failed s r (SReplyErr inp)
          (DebugErrorf (Logger_ s)
             ("Access to " ++ DQ ++ "%s" ++ DQ ++ " denied")
             [ArgS (ChannelDescriptor_String chd)]) in
      (s, tr2 ++ tr ++ [EvCancel], Return e)
  | None =>
  (* set up reverse port forwarding *)
  match startReverse s r (SReplyErr inp) (SStartErr inp) 0
          (ChannelDescriptors c) with
  | (tr3, Some err) => (s, tr2 ++ tr3 ++ [EvCancel], Return (Some err))
  | (tr3, None) =>
  (* success! *)
  match sendSSHReply s r true None (SReplyErr inp) with
  | (tr4, Some err) =>
      (s, tr2 ++ tr3 ++ tr4 ++ [EvCancel],
       Return (Some (DebugErrorf (Logger_ s)
                       "Failed to send SSH config success response: %s"
                       [ArgE err])))
  | (tr4, None) =>
      (s, tr2 ++ tr3 ++ tr4 ++
          [EvGo "handleSSHRequests"
             (handleSSHRequests s (SLaterReqs inp) (SReqsEnd inp));
           EvGo "handleSSHChannels"
             (handleSSHChannels s (SChans inp) (SChansEnd inp));
           EvLog Debug (Logger_ s) "SSH session up and running" [];
           EvSSHWait;
           EvCancel],
       Return (SWaitErr inp))
  end end end end end.

(** [ProxySSHSession.Run] *)
Definition Run (s : ProxySSHSession) (inp : SessionInput)
  : ProxySSHSession * list Event * outcome :=
  let tr0 := [EvLog Debug (Logger_ s) "SSH Handshaking..." []] in
  let '(srv, htr, herr) := chserver.NewServerConn (server s) (SPeer inp) in
  let s := with_server srv s in
  match herr with
  | Some err =>
      (s, tr0 ++ htr ++
          [EvLog Debug (Logger_ s) "Failed to handshake (%s)" [ArgE err];
           EvCloseDone], Return (Some err))
  | None =>
      match runWithSSHConn s inp with
      | (s, tr, Panic) => (s, tr0 ++ htr ++ tr, Panic)
      | (s, tr, Return err) =>
          (s, tr0 ++ htr ++ tr ++
              match err with
              | Some e =>
                  [EvLog Debug (Logger_ s) "SSH session failed: %s" [ArgE e]]
              | None => []
              end ++
              [EvLog Debug (Logger_ s) "Closing SSH connection" [];
               EvSSHClose;
               EvCloseDone], Return err)
      end
  end.

End Handlers.
End ProxySSHSession.

(** ** The generic session of package share *)
Module SSHSession.
Section Handlers.
Context `{Ext : Externals}.

Record SSHSession : Type := mkSSHSession {
  Logger_ : Logger;
  id : Z;
  localChannelEnv : LocalChannelEnv
}.

(** The closure [reject] of [handleSSHNewChannel]. *)
Definition reject (s : SSHSession) (ch : NewChannel)
    (reason : RejectionReason) (err : error) : list Event * option error :=
  ([EvLog Debug (Logger_ s) "Sending SSH NewChannel rejection (reason=%v): %s"
      [ArgReason reason; ArgE err];
    EvReject ch reason (ErrorText err)], Some err).

(** [SSHSession.handleSSHNewChannel].  Between the decoding of the
    descriptor and the construction of the endpoint the source reads
    [// TODO: ***MUST*** implement access control here]: nothing is
    checked there. *)
Definition handleSSHNewChannel (s : SSHSession) (ch : NewChannel)
  : list Event * option error :=
  let epdJSON := ExtraData ch in
  match Unmarshal epdJSON with
  | None =>
      reject s ch UnknownChannelType
        (Errorf (Logger_ s) "Badly formatted NewChannel request" [])
  | Some epd =>
  let tr0 := [EvLog Debug (Logger_ s) "SSH NewChannel request, endpoint ='%s'"
                [ArgEpd epd]] in
  match NewLocalSkeletonChannelEndpoint (Logger_ s) (localChannelEnv s) epd with
  | inl err =>
      let '(tr, e) := reject s ch Prohibited err in
      (tr0 ++ EvLog Debug (Logger_ s)
                "Failed to create skeleton endpoint for SSH NewChannel: %s"
                [ArgE err] :: tr, e)
  | inr ep =>
  match AcceptErr ch with
  | Some err =>
      (tr0 ++ [EvAccept ch (Some err);
               EvLog Debug (Logger_ s) "Failed to accept SSH NewChannel: %s"
                 [ArgE err];
               EvEndpointClose ep], Some err)
  | None =>
  let tr1 := tr0 ++ [EvAccept ch None; EvGo "ssh.DiscardRequests" []] in
  match WrapErr ch with
  | Some err =>
      (tr1 ++ [EvLog Debug (Logger_ s) "Failed wrap SSH NewChannel: %s"
                 [ArgE err];
               EvChannelClose ch;
               EvEndpointClose ep], Some err)
  | None =>
  let '(numSent, numReceived, err) := DialAndServeResult ch in
  (tr1 ++ [EvDialAndServe ep ch (DialAndServeResult ch);
           match err with
           | Some e =>
               EvLog Debug (Logger_ s)
                 "NewChannel session ended with error after %d bytes (caller->called), %d bytes (called->caller): %s"
                 [ArgZ numSent; ArgZ numReceived; ArgE e]
           | None =>
               EvLog Debug (Logger_ s)
                 "NewChannel session ended normally after %d bytes (caller->called), %d bytes (called->caller)"
                 [ArgZ numSent; ArgZ numReceived]
           end], err)
  end end end end.

(** [SSHSession.handleSSHChannels] *)
Fixpoint handleSSHChannels (s : SSHSession) (chans : list NewChannel)
    (fin : option error) : list Event :=
  match chans with
  | [] =>
      match fin with
      | None =>
          [EvLog Debug (Logger_ s) "End of incoming SSH NewChannels stream" []]
      | Some err =>
          [EvLog Debug (Logger_ s)
             "SSH NewChannels stream processing aborted: %s" [ArgE err]]
      end
  | ch :: rest =>
      EvGo "handleSSHNewChannel" (fst (handleSSHNewChannel s ch))
        :: handleSSHChannels s rest fin
  end.

End Handlers.
End SSHSession.

(** ** Reading traces *)
Section Traces.
Context `{Ext : Externals}.

(** An event together with all the events of the goroutines it starts. *)
Fixpoint unfold_event (e : Event) : list Event :=
  e :: match e with
       | EvGo _ body => List.flat_map unfold_event body
       | _ => []
       end.

(** Every event of a trace, those of its goroutines included. *)
Definition everything (tr : list Event) : list Event :=
  List.flat_map unfold_event tr.

Definition is_reply (e : Event) : bool :=
  match e with EvReply _ _ _ => true | _ => false end.

Definition is_accept (e : Event) : bool :=
  match e with EvAccept _ None => true | _ => false end.

Definition is_proxy_start (e : Event) : bool :=
  match e with EvProxyStart _ _ _ => true | _ => false end.

Definition is_upgrade (e : Event) : bool :=
  match e with EvUpgrade _ => true | _ => false end.

(** The answers [handleClientHandler] gives by itself. *)
Definition is_http (e : Event) : bool :=
  match e with
  | EvProxyServeHTTP _ | EvWrite _ | EvWriteHeader _ => true
  | _ => false
  end.

Definition is_ssh_close (e : Event) : bool :=
  match e with EvSSHClose => true | _ => false end.

Definition is_channel_loop (e : Event) : bool :=
  match e with
  | EvGo name _ => String.eqb name "handleSSHChannels"
  | _ => false
  end.

(** The replies to control requests, wherever they are sent from. *)
Definition replies (tr : list Event) : list Event :=
  List.filter is_reply (everything tr).

(** The channel opens that were accepted. *)
Definition accepted (tr : list Event) : list Event :=
  List.filter is_accept (everything tr).

(** The stub listeners that were started. *)
Definition stubs (tr : list Event) : list Event :=
  List.filter is_proxy_start (everything tr).

(** The goroutines started to serve inbound channel opens. *)
Definition serving (tr : list Event) : list Event :=
  List.filter is_channel_loop (everything tr).

(** The closes of the SSH connection. *)
Definition closes (tr : list Event) : list Event :=
  List.filter is_ssh_close (everything tr).

(** A request is a matching upgrade when it asks for a websocket and
    announces exactly the protocol version of this server. *)
Definition matching_upgrade (r : chserver.HTTPRequest) : bool :=
  String.eqb (ToLower (chserver.Upgrade r)) "websocket"
  && HasPrefix (chserver.SecWebSocketProtocol r) "xevo-chisel-"
  && String.eqb (chserver.SecWebSocketProtocol r) ProtocolVersion.

End Traces.

(** ** A concrete outside world

    The handlers are run below on this instance of [Externals].  A
    compiled regular expression is given by the set of strings it matches;
    the two decoders are tables. *)
Module Lab.

Definition lower_ascii (c : Ascii.ascii) : Ascii.ascii :=
  let n := Ascii.nat_of_ascii c in
  if Nat.leb 65 n && Nat.leb n 90 then Ascii.ascii_of_nat (n + 32) else c.

Fixpoint lower (s : string) : string :=
  match s with
  | EmptyString => EmptyString
  | String c rest => String (lower_ascii c) (lower rest)
  end.

Definition tcp (role : ChannelEndpointRole) (path : string)
  : ChannelEndpointDescriptor :=
  mkEpd role ChannelEndpointTypeTCP path.

Definition skel9001 := tcp ChannelEndpointRoleSkeleton "127.0.0.1:9001".
Definition skel9002 := tcp ChannelEndpointRoleSkeleton "127.0.0.1:9002".
Definition stub3000 := tcp ChannelEndpointRoleStub "0.0.0.0:3000".
Definition socks := mkEpd ChannelEndpointRoleSkeleton ChannelEndpointTypeSocks "".
Definition stdio := mkEpd ChannelEndpointRoleSkeleton ChannelEndpointTypeStdio "".

Definition route9001 := mkChd false stub3000 skel9001.
Definition route9002 := mkChd false stub3000 skel9002.
Definition reverse9001 := mkChd true stub3000 skel9001.

Definition descriptors : list (string * ChannelEndpointDescriptor) :=
  [("skel9001", skel9001); ("skel9002", skel9002); ("stub3000", stub3000);
   ("socks", socks); ("stdio", stdio)].

Definition configs : list (string * SessionConfigRequest) :=
  [("none", mkConfig "1.0" []);
   ("9001", mkConfig "1.0" [route9001]);
   ("9002", mkConfig "1.0" [route9002]);
   ("R9001", mkConfig "1.0" [reverse9001])].

Definition lookup_table {A : Type} (t : list (string * A)) (k : string)
  : option A :=
  match List.find (fun p => String.eqb (fst p) k) t with
  | Some p => Some (snd p)
  | None => None
  end.

Definition epd_text (d : ChannelEndpointDescriptor) : string :=
  (Type_ d ++ ":" ++ Path d)%string.

(** Modelled from the spec: [NewLocalSkeletonChannelEndpoint], declared
    outside the listed sources.  "Validate that Role=Skeleton [...].
    Disallow Stdio on server skeletons.  Disallow Socks when SOCKS5 is
    disabled."  and "FeatureNotEnabled (Socks/Loop disabled in
    configuration)". *)
Definition newSkeleton (l : Logger) (env : LocalChannelEnv)
    (d : ChannelEndpointDescriptor) : error + ChannelEndpointDescriptor :=
  if negb (bool_decide (Role d = ChannelEndpointRoleSkeleton)) then
    inl (Errorf l "Role must be skeleton: %s" [ArgEpdLong d])
  else if String.eqb (Type_ d) ChannelEndpointTypeStdio && IsServer env then
    inl (Errorf l "stdio endpoints are not allowed on the server: %s"
           [ArgEpdLong d])
  else if String.eqb (Type_ d) ChannelEndpointTypeSocks
          && negb (GetSocksServer env) then
    inl (Errorf l "socks is not enabled: %s" [ArgEpdLong d])
  else if String.eqb (Type_ d) ChannelEndpointTypeLoop
          && negb (GetLoopServer env) then
    inl (Errorf l "loop is not enabled: %s" [ArgEpdLong d])
  else inr d.

#[export] Instance lab : Externals := {|
  Regexp := string -> bool;
  MatchString := fun r s => r s;
  ToLower := lower;
  Unmarshal := lookup_table descriptors;
  ProtocolVersion := "xevo-chisel-v3";
  BuildVersion := "1.0";
  DecodeConfig := fun payload =>
    match lookup_table configs payload with
    | Some c => inr c
    | None => inl (ErrExternal "unexpected EOF")
    end;
  ChannelDescriptor_String := fun chd =>
    ((if Reverse chd then "R:" else "") ++ epd_text (Skeleton chd))%string;
  LocalSkeletonChannelEndpoint := ChannelEndpointDescriptor;
  NewLocalSkeletonChannelEndpoint := newSkeleton
|}.

(** The regular expression [^tcp:.*:9001$]. *)
Definition re9001 : string -> bool :=
  fun s => HasPrefix s "tcp:" && HasSuffix s ":9001"
           && Nat.leb 9 (String.length s).

Definition alice : User := mkUser "alice" "secret" [re9001].

Definition srv : Server :=
  mkServer (NewLogger "server") {["alice" := alice]} ∅ 0 None false true false.

(** The same server without users. *)
Definition open_srv : Server :=
  mkServer (NewLogger "server") ∅ ∅ 0 None false true false.

Definition alice_conn : chserver.ConnMetadata :=
  chserver.mkConnMetadata "alice" "sid-1".

Definition alice_login : chserver.Handshake :=
  chserver.mkHandshake alice_conn ["secret"] None.

Definition open_channel (data : string) (res : Z * Z * option error)
  : NewChannel :=
  mkNewChannel data None 1 None None res.

Definition dial_refused : error :=
  ErrExternal "dial tcp 127.0.0.1:9002: connect: connection refused".

Definition config_req (payload : string) : Request :=
  mkRequest "config" payload.

Definition ws_input (first : Recv) (chans : list NewChannel)
  : chserver.WsInput :=
  chserver.mkWsInput None alice_login first [] chans (fun _ => None).

Definition session_input (first : CtxRecv) (chans : list NewChannel)
  : SessionInput :=
  mkSessionInput _ alice_login first None (fun _ => None) [] None chans None
                 None.

Definition session : ProxySSHSession.ProxySSHSession :=
  fst (ProxySSHSession.NewServerSSHSession 0 srv).

(** The server after the handshake of [alice_login]: first as
    [handleWebsocket] sees it, with the session counted, then as
    [ProxySSHSession.Run] sees it. *)
Definition srv_counted : Server :=
  mkServer (NewLogger "server") {["alice" := alice]} ∅ 1 None false true false.
Definition srv_ws_authed : Server :=
  set_sessions {["sid-1" := alice]} srv_counted.
Definition srv_authed : Server := set_sessions {["sid-1" := alice]} srv.

(** An upgrade request of an old client, for a URL the server does not
    know. *)
Definition old_client : chserver.HTTPRequest :=
  chserver.mkHTTPRequest "WebSocket" "xevo-chisel-vOLD" "/".

(** A plain request for the health page. *)
Definition health_check : chserver.HTTPRequest :=
  chserver.mkHTTPRequest "" "" "/health".

(** The same server behind a reverse proxy. *)
Definition proxied : Server :=
  mkServer (NewLogger "server") {["alice" := alice]} ∅ 0
           (Some "http://backend") false true false.


(** Channel opens: a TCP skeleton whose target accepts, the same with a
    target that refuses the connection, a SOCKS skeleton, a stdio
    skeleton, a stub descriptor, and extra data that does not decode. *)
Definition open9001 : NewChannel := open_channel "skel9001" (5, 5, None)%Z.
Definition open9002 : NewChannel := open_channel "skel9002" (5, 5, None)%Z.
Definition open9002_refused : NewChannel :=
  open_channel "skel9002" (0, 0, Some dial_refused)%Z.
Definition open_socks : NewChannel := open_channel "socks" (0, 0, None)%Z.
Definition open_stdio : NewChannel := open_channel "stdio" (0, 0, None)%Z.
Definition open_stub : NewChannel := open_channel "stub3000" (0, 0, None)%Z.
Definition open_garbage : NewChannel := open_channel "{" (0, 0, None)%Z.

(** The logger [handleWebsocket] forks for the first session. *)
Definition clog : Logger := Fork (NewLogger "server") "session#%d" [1%Z].

(** A generic session that runs in the server. *)
Definition generic : SSHSession.SSHSession :=
  SSHSession.mkSSHSession (Fork (NewLogger "server") "SSHSession#1" []) 1
    (mkEnv true true false).

End Lab.

(** ** server/server.go: building the server, and its users *)

(** [*url.URL], as far as [NewServer] reads it. *)
Record URL : Type := mkURL {
  Scheme : string;
  Host : string;
  URLText : string                     (* u.String() *)
}.

(** What [NewServer], [AddUser] and [DeleteUser] use and do not define. *)
Class SetupExternals `{Ext : Externals} : Type := {
  (** [regexp.Compile] *)
  Compile : string -> error + Regexp;
  (** [chshare.UserAllowAll] *)
  UserAllowAll : Regexp;
  (** [chshare.ParseAuth] *)
  ParseAuth : string -> string * string;
  (** [UserIndex.LoadUsers], on the index as it stands *)
  LoadUsers : string -> gmap string User -> error + gmap string User;
  (** [chshare.GenerateKey], [ssh.ParsePrivateKey] and
      [chshare.FingerprintKey] in a row; [None] when the key does not
      parse *)
  KeyFingerprint : string -> option string;
  (** [url.Parse] *)
  url_Parse : string -> error + URL;
  (** [socks5.New] and [chshare.NewLoopServer]: the error, if any *)
  socks5_New : option error;
  NewLoopServer : option error
}.

Module chserver_setup.
Section Setup.
Context `{Ext : Externals} `{Setup : !SetupExternals}.

(** [chserver.Config] *)
Record Config : Type := mkConfig {
  KeySeed : string;
  AuthFile : string;
  Auth : string;
  Proxy : string;
  Socks5 : bool;
  NoLoop : bool;
  Reverse : bool;
  Debug : bool
}.

Definition set_users (m : gmap string User) (s : Server) : Server :=
  mkServer (logger s) m (sessions s) (sessCount s) (reverseProxy s)
           (socksServer s) (loopServer s) (reverseOk s).

(** How [NewServer] ends: with a server and its fingerprint, with an
    error, or in [log.Fatal].  [FailedLoop err] is the error
    [fmt.Errorf("%s: Could not create loopback server: %s", prefix, err)]. *)
Inductive Started : Type :=
| Built (s : Server) (fingerprint : string)
| Failed (err : error)
| FailedLoop (err : error)
| Fatal (msg : string).

(** [NewServer].  The server value starts with an empty user index, an
    empty session map and a session counter of zero; [UserIndex.AddUser]
    stores a user under its name. *)
Definition NewServer (config : Config) : Started * list Event :=
  let l := NewLogger "server" in
  let users0 : gmap string User := ∅ in
  match
    (if negb (String.eqb (AuthFile config) "")
     then LoadUsers (AuthFile config) users0
     else inr users0)
  with
  | inl err => (Failed err, [])
  | inr users1 =>
  let users2 :=
    if negb (String.eqb (Auth config) "") then
      let '(name, pass) := ParseAuth (Auth config) in
      if negb (String.eqb name "")
      then <[name := mkUser name pass [UserAllowAll]]> users1
      else users1
    else users1 in
  match KeyFingerprint (KeySeed config) with
  | None => (Fatal "Failed to parse key", [])
  | Some fingerprint =>
  match
    (if negb (String.eqb (Proxy config) "") then
       match url_Parse (Proxy config) with
       | inl err => inl err
       | inr u =>
           if String.eqb (Host u) ""
           then inl (Errorf l "Missing protocol (%s)" [ArgS (URLText u)])
           else inr (Some (URLText u))
       end
     else inr None)
  with
  | inl err => (Failed err, [])
  | inr proxy =>
  match (if Socks5 config then socks5_New else None) with
  | Some err => (Failed err, [])
  | None =>
  let tr1 :=
    if Socks5 config then [EvLog Info l "SOCKS5 server enabled" []] else [] in
  match (if NoLoop config then None else NewLoopServer) with
  | Some err => (FailedLoop err, tr1)
  | None =>
  let tr2 :=
    tr1 ++ if NoLoop config then [EvLog Info l "Loop server disabled" []]
           else [] in
  let tr3 :=
    tr2 ++ if Reverse config
           then [EvLog Info l "Reverse tunnelling enabled" []] else [] in
  (Built (mkServer l users2 ∅ 0 proxy (Socks5 config) (negb (NoLoop config))
            (Reverse config))
         fingerprint, tr3)
  end end end end end.

(** The loop of [AddUser] over the address patterns: [acc] is
    [authorizedAddrs] so far. *)
Fixpoint compileAddrs (acc : list Regexp) (addrs : list string)
  : error + list Regexp :=
  match addrs with
  | [] => inr acc
  | addr :: rest =>
      match Compile addr with
      | inl err => inl err
      | inr authorizedAddr => compileAddrs (acc ++ [authorizedAddr]) rest
      end
  end.

(** [Server.AddUser] *)
Definition AddUser (s : Server) (user pass : string) (addrs : list string)
  : Server * option error :=
  match compileAddrs [] addrs with
  | inl err => (s, Some err)
  | inr authorizedAddrs =>
      (set_users (<[user := mkUser user pass authorizedAddrs]> (users s)) s,
       None)
  end.

(** [Server.DeleteUser] *)
Definition DeleteUser (s : Server) (user : string) : Server :=
  set_users (delete user (users s)) s.

End Setup.
End chserver_setup.

(** ** More readings of traces *)
Section Answers.
Context `{Ext : Externals}.

(** The answer to a channel open: the open it answers, and whether it is
    the acceptance. *)
Definition answer_of (e : Event) : option (NewChannel * bool) :=
  match e with
  | EvReject ch _ _ => Some (ch, false)
  | EvAccept ch None => Some (ch, true)
  | EvAccept ch (Some _) => Some (ch, false)
  | _ => None
  end.

(** The opens a trace answers, in the order of the answers. *)
Definition answered (tr : list Event) : list NewChannel :=
  omap (fun e => fst <$> answer_of e) tr.

Definition is_close_done (e : Event) : bool :=
  match e with EvCloseDone => true | _ => false end.

Definition is_cancel (e : Event) : bool :=
  match e with EvCancel => true | _ => false end.

Definition is_request_loop (e : Event) : bool :=
  match e with
  | EvGo name _ => String.eqb name "handleSSHRequests"
  | _ => false
  end.

(** What an endpoint ends in: it is closed, or it is dialled and
    served. *)
Definition is_endpoint_end (e : Event) : bool :=
  match e with
  | EvEndpointClose _ | EvDialAndServe _ _ _ => true
  | _ => false
  end.

(** The test [Server.handleSSHChannels] puts an open through before it
    calls [ch.Accept()]. *)
Definition admitted (s : Server) (ch : NewChannel) : bool :=
  match Unmarshal (ExtraData ch) with
  | None => false
  | Some epd =>
      bool_decide (Role epd = ChannelEndpointRoleSkeleton)
      && negb (String.eqb (Type_ epd) ChannelEndpointTypeStdio)
      && negb (String.eqb (Type_ epd) ChannelEndpointTypeLoop)
      && negb (String.eqb (Type_ epd) ChannelEndpointTypeUnix)
      && (negb (String.eqb (Type_ epd) ChannelEndpointTypeSocks)
          || socksServer s)
  end.

(** The reverse routes of a route list, each with its index in the
    list, from index [i] on. *)
Fixpoint reverse_routes (i : nat) (cds : list ChannelDescriptor)
  : list (nat * ChannelDescriptor) :=
  match cds with
  | [] => []
  | chd :: rest =>
      if Reverse chd then (i, chd) :: reverse_routes (S i) rest
      else reverse_routes (S i) rest
  end.

End Answers.

(** ** The concrete outside world, for the server setup *)
Module LabSetup.
Import Lab.

Definition allow_all : string -> bool := fun _ => true.

Definition patterns : list (string * (string -> bool)) :=
  [("^tcp:.*:9001$", re9001); (".*", allow_all)].

(** [chshare.ParseAuth] as a split at the first colon. *)
Fixpoint split_colon (acc s : string) : string * string :=
  match s with
  | EmptyString => (EmptyString, EmptyString)
  | String c rest =>
      if Ascii.eqb c (Ascii.ascii_of_nat 58) then (acc, rest)
      else split_colon (acc ++ String c EmptyString)%string rest
  end.

#[export] Instance lab_setup : SetupExternals := {|
  Compile := fun pattern =>
    match lookup_table patterns pattern with
    | Some r => inr r
    | None => inl (ErrExternal "error parsing regexp")
    end;
  UserAllowAll := allow_all;
  ParseAuth := split_colon "";
  LoadUsers := fun file index =>
    if String.eqb file "users.json" then inr (<["alice" := alice]> index)
    else inl (ErrExternal "open: no such file or directory");
  KeyFingerprint := fun seed => Some ("fingerprint of " ++ seed)%string;
  url_Parse := fun raw =>
    if String.eqb raw "http://backend"
    then inr (mkURL "http" "backend" "http://backend")
    else if String.eqb raw "backend" then inr (mkURL "" "" "backend")
    else inl (ErrExternal "parse: invalid URL");
  socks5_New := None;
  NewLoopServer := None
|}.

(** A server started with [--auth bob:hunter2] and nothing else. *)
Definition bob_config : chserver_setup.Config :=
  chserver_setup.mkConfig "seed" "" "bob:hunter2" "" false false false false.

Definition bob : User := mkUser "bob" "hunter2" [allow_all].

Definition bob_srv : Server :=
  mkServer (NewLogger "server") {["bob" := bob]} ∅ 0 None false true false.

End LabSetup.

(** ** Sample inputs for the further properties *)
Module LabRuns.
Import Lab.

(** A server without users that allows reverse tunnelling, before and
    after [handleWebsocket] has counted the session. *)
Definition rev_srv : Server :=
  mkServer (NewLogger "server") ∅ ∅ 0 None false true true.
Definition rev_srv_counted : Server :=
  mkServer (NewLogger "server") ∅ ∅ 1 None false true true.

Definition bind_failed : error :=
  ErrExternal "listen tcp 0.0.0.0:3000: bind: address already in use".

(** A session that asks for the reverse route to port 9001; the stub
    listener starts, or fails to. *)
Definition reverse_input (start : option error) : chserver.WsInput :=
  chserver.mkWsInput None alice_login (RecvReq (config_req "R9001"))
    [mkRequest "ping" ""] [open9001] (fun _ => start).

Definition reverse_session_input (start reply : option error) : SessionInput :=
  mkSessionInput _ alice_login (CtxReq (config_req "R9001")) reply
    (fun _ => start) [(mkRequest "ping" "", None)] None [open9001] None None.

Definition rev_session : ProxySSHSession.ProxySSHSession :=
  fst (ProxySSHSession.NewServerSSHSession 0 rev_srv).

(** An open of a type the server has no name for, and an outside world
    whose decoder knows it. *)
Definition udp : ChannelEndpointDescriptor :=
  mkEpd ChannelEndpointRoleSkeleton "udp" "10.0.0.1:53".
Definition open_udp : NewChannel := open_channel "udp" (0, 0, None)%Z.

Definition lab_udp : Externals := {|
  Regexp := string -> bool;
  MatchString := fun r s => r s;
  ToLower := lower;
  Unmarshal := lookup_table (("udp", udp) :: descriptors);
  ProtocolVersion := "xevo-chisel-v3";
  BuildVersion := "1.0";
  DecodeConfig := fun payload =>
    match lookup_table configs payload with
    | Some c => inr c
    | None => inl (ErrExternal "unexpected EOF")
    end;
  ChannelDescriptor_String := fun chd =>
    ((if Reverse chd then "R:" else "") ++ epd_text (Skeleton chd))%string;
  LocalSkeletonChannelEndpoint := ChannelEndpointDescriptor;
  NewLocalSkeletonChannelEndpoint := newSkeleton
|}.

(** A server of that world: no users, no SOCKS5 server. *)
Definition udp_srv : @Server lab_udp :=
  @mkServer lab_udp (NewLogger "server") ∅ ∅ 0 None false true false.

End LabRuns.

(** ** The comparison of passwords in [authUser] *)

(** Go's built-in comparison of strings byte by byte, as the [!=] of
    [authUser] does it once the lengths are known to be equal: the bytes
    are compared from the first on and the comparison stops at the first
    pair that differs.  The boolean is the result of [a != b], the number
    is how many pairs of bytes were compared. *)
Fixpoint bytes_ne (a b : string) : bool * nat :=
  match a, b with
  | String x a', String y b' =>
      if Ascii.eqb x y
      then let '(r, n) := bytes_ne a' b' in (r, S n)
      else (true, 1)
  | EmptyString, EmptyString => (false, 0)
  | _, _ => (true, 0)
  end.

(** Go's [a != b] on strings: strings of different lengths differ
    without a look at their bytes. *)
Definition string_ne (a b : string) : bool * nat :=
  if Nat.eqb (String.length a) (String.length b) then bytes_ne a b
  else (true, 0).

Section PasswordComparison.
Context `{Ext : Externals}.

(** The pairs of bytes [authUser] compares on a login: the test
    [!found || user.Pass != string(password)] compares passwords only
    when the user index is not empty and holds the name. *)
Definition authUser_compared (s : Server) (c : chserver.ConnMetadata)
    (password : string) : nat :=
  if Nat.eqb (size (users s)) 0 then 0
  else match users s !! chserver.ConnUser c with
       | Some user => snd (string_ne (Pass user) password)
       | None => 0
       end.

(** What a comparison in constant time would give: for the logins of
    one connection, passwords of the same length cost the same number of
    byte comparisons, wherever they differ from the stored one. *)
Definition compared_in_constant_time (s : Server) (c : chserver.ConnMetadata)
  : Prop :=
  forall p q : string,
    String.length p = String.length q ->
    authUser_compared s c p = authUser_compared s c q.

End PasswordComparison.

(** A server whose only user has a password of 128 bytes, and two wrong
    passwords of the same length: one differs from the stored password in
    its first byte only, the other in its last byte only. *)
Module LabPasswords.

Fixpoint pad (n : nat) (c : string) : string :=
  match n with
  | O => EmptyString
  | S n' => String.append c (pad n' c)
  end.

Definition long_secret : string := pad 128 "a".
Definition wrong_first : string := String.append "b" (pad 127 "a").
Definition wrong_last : string := String.append (pad 127 "a") "b".

Definition carol : @User Lab.lab := mkUser "carol" long_secret [].

Definition carol_srv : @Server Lab.lab :=
  mkServer (NewLogger "server") {["carol" := carol]} ∅ 0 None false true false.

Definition carol_conn : chserver.ConnMetadata :=
  chserver.mkConnMetadata "carol" "sid-3".

End LabPasswords.

(** * Properties *)

(** ** The HTTP front door *)
Section FrontDoor.
Context `{Ext : Externals}.

Lemma matching_upgrade_served s r inp :
  matching_upgrade r = true ->
  chserver.handleClientHandler s r inp = chserver.handleWebsocket s inp.
Proof.
  unfold matching_upgrade, chserver.handleClientHandler.
  intros H. apply andb_prop in H as [H1 H2]. by rewrite H1, H2.
Qed.

(** C8.  A websocket upgrade whose protocol has the [xevo-chisel-] prefix
    and is not the expected version is not upgraded: the server value is
    returned as it was (no session is counted, no session entry touched),
    the handler logs one info line that names both versions, and all it
    does besides is answer over HTTP; without a reverse proxy, and for a
    URL other than /health and /version, the answer is status 404 with
    body [Not found]. *)
Theorem version_mismatch_falls_through s (r : chserver.HTTPRequest) inp :
  ToLower (chserver.Upgrade r) = "websocket" ->
  HasPrefix (chserver.SecWebSocketProtocol r) "xevo-chisel-" = true ->
  chserver.SecWebSocketProtocol r <> ProtocolVersion ->
  exists rest,
    chserver.handleClientHandler s r inp
    = (s, EvLog Info (logger s)
            "ignored client connection using protocol '%s', expected '%s'"
            [ArgS (chserver.SecWebSocketProtocol r); ArgS ProtocolVersion]
          :: rest)
    /\ forallb is_http rest = true
    /\ (reverseProxy s = None ->
        chserver.URL r <> "/health" -> chserver.URL r <> "/version" ->
        rest = [EvWriteHeader 404; EvWrite "Not found"]).
Proof.
  intros Hup Hpre Hver. unfold chserver.handleClientHandler.
  rewrite Hup, Hpre.
  change (String.eqb "websocket" "websocket" && true) with true. cbv iota.
  destruct (String.eqb_spec (chserver.SecWebSocketProtocol r) ProtocolVersion)
    as [E|_]; [contradiction|].
  eexists. split; [reflexivity|]. split.
  - destruct (reverseProxy s); [reflexivity|].
    destruct (String.eqb _ "/health"); [reflexivity|].
    destruct (String.eqb _ "/version"); reflexivity.
  - intros -> Hh Hv.
    destruct (String.eqb_spec (chserver.URL r) "/health"); [contradiction|].
    destruct (String.eqb_spec (chserver.URL r) "/version"); [contradiction|].
    reflexivity.
Qed.

(** C10.  For a request that is not a matching upgrade the server value is
    left as it was, and, log lines apart: with a reverse proxy configured
    the only thing done is to hand the request to the proxy, whatever the
    URL, /health and /version included; the built-in answers (the health
    and version bodies, and status 404) are given only in the other case,
    when no proxy is configured. *)
Theorem reverse_proxy_takes_all s (r : chserver.HTTPRequest) inp :
  matching_upgrade r = false ->
  fst (chserver.handleClientHandler s r inp) = s
  /\ match reverseProxy s with
     | Some target =>
         calls (snd (chserver.handleClientHandler s r inp))
         = [EvProxyServeHTTP target]
     | None =>
         calls (snd (chserver.handleClientHandler s r inp))
         = if String.eqb (chserver.URL r) "/health" then [EvWrite ("OK" ++ LF)]
           else if String.eqb (chserver.URL r) "/version"
                then [EvWrite BuildVersion]
                else [EvWriteHeader 404; EvWrite "Not found"]
     end.
Proof.
  unfold matching_upgrade, chserver.handleClientHandler. intros H.
  destruct (String.eqb (ToLower _) "websocket"
            && HasPrefix _ "xevo-chisel-"); cbn [andb] in H.
  - rewrite H. cbn [fst snd]. split; [reflexivity|].
    destruct (reverseProxy s); [reflexivity|].
    destruct (String.eqb _ "/health"); [reflexivity|].
    destruct (String.eqb _ "/version"); reflexivity.
  - cbn [fst snd]. split; [reflexivity|].
    destruct (reverseProxy s); [reflexivity|].
    destruct (String.eqb _ "/health"); [reflexivity|].
    destruct (String.eqb _ "/version"); reflexivity.
Qed.

End FrontDoor.

(** ** The password callback *)
Section Password.
Context `{Ext : Externals}.

(** The three ways through [authUser]. *)
Lemma authUser_cases s (c : chserver.ConnMetadata) (password : string) :
  chserver.authUser s c password =
  if Nat.eqb (size (users s)) 0 then (s, [], None)
  else match users s !! chserver.ConnUser c with
       | Some u =>
           if String.eqb (Pass u) password
           then (set_sessions (<[chserver.SessionID c := u]> (sessions s)) s,
                 [], None)
           else (s, [EvLog Debug (logger s) "Login failed for user: %s"
                       [ArgS (chserver.ConnUser c)]],
                 Some (ErrorsNew "Invalid authentication for username: %s"))
       | None =>
           (s, [EvLog Debug (logger s) "Login failed for user: %s"
                  [ArgS (chserver.ConnUser c)]],
            Some (ErrorsNew "Invalid authentication for username: %s"))
       end.
Proof.
  unfold chserver.authUser. destruct (Nat.eqb _ 0); [done|].
  destruct (users s !! _) as [u|]; [|done]. by destruct (String.eqb _ _).
Qed.

Lemma bytes_ne_decides (a b : string) :
  fst (bytes_ne a b) = negb (String.eqb a b).
Proof.
  revert b. induction a as [|x a IH]; intros [|y b]; try reflexivity.
  cbn [bytes_ne String.eqb]. destruct (Ascii.eqb x y); [|reflexivity].
  specialize (IH b). destruct (bytes_ne a b) as [r n]. exact IH.
Qed.

(** Go's [!=] on strings tells whether the strings differ. *)
Lemma string_ne_decides (a b : string) :
  fst (string_ne a b) = negb (String.eqb a b).
Proof.
  unfold string_ne.
  destruct (Nat.eqb_spec (String.length a) (String.length b)) as [E|N].
  - apply bytes_ne_decides.
  - destruct (String.eqb_spec a b) as [->|_]; [contradiction|reflexivity].
Qed.

(** C7, as the code has it.  With no user configured [authUser] accepts
    whatever it is given, compares nothing and changes nothing.  With
    users configured it accepts exactly when the user name is in the
    index and the password presented equals the stored one; the two are
    compared with Go's built-in [!=], which is the only comparison made
    and stops at the first byte that differs.  On acceptance the session
    map gains the entry from the session id to that user, so that a
    lookup of the session id yields the user; on refusal the server value
    is left as it was. *)
Theorem authUser_decides s (c : chserver.ConnMetadata) (password : string) :
  if Nat.eqb (size (users s)) 0 then
    chserver.authUser s c password = (s, [], None)
    /\ authUser_compared s c password = 0
  else
    (snd (chserver.authUser s c password) = None
     <-> exists u, users s !! chserver.ConnUser c = Some u
                   /\ Pass u = password)
    /\ match users s !! chserver.ConnUser c with
       | Some u =>
           (snd (chserver.authUser s c password) = None
            <-> fst (string_ne (Pass u) password) = false)
           /\ authUser_compared s c password
              = snd (string_ne (Pass u) password)
       | None => authUser_compared s c password = 0
       end
    /\ match snd (chserver.authUser s c password) with
       | None =>
           exists u, users s !! chserver.ConnUser c = Some u
             /\ fst (fst (chserver.authUser s c password))
                = set_sessions (<[chserver.SessionID c := u]> (sessions s)) s
             /\ sessions (fst (fst (chserver.authUser s c password)))
                  !! chserver.SessionID c = Some u
       | Some _ => fst (fst (chserver.authUser s c password)) = s
       end.
Proof.
  rewrite authUser_cases. unfold authUser_compared.
  destruct (Nat.eqb (size (users s)) 0); [by split|].
  destruct (users s !! chserver.ConnUser c) as [u|] eqn:Hu.
  - rewrite string_ne_decides.
    destruct (String.eqb_spec (Pass u) password) as [E|N]; cbn [fst snd negb].
    + split; [split; eauto|]. split; [by split|].
      exists u. split; [done|]. split; [done|]. apply lookup_insert_eq.
    + split; [|by split].
      split; [discriminate|]. intros (u' & Hu' & Hp). congruence.
  - cbn [fst snd]. split; [|by split]. split; [discriminate|].
    intros (u' & Hu' & _). discriminate.
Qed.

End Password.

(** ** The front door and the password callback, run *)
Section FrontDoorRun.
Import Lab.

Lemma version_mismatch_witness :
  (ToLower (chserver.Upgrade old_client) = "websocket"
   /\ HasPrefix (chserver.SecWebSocketProtocol old_client) "xevo-chisel-" = true
   /\ chserver.SecWebSocketProtocol old_client <> ProtocolVersion)
  /\ exists rest,
       chserver.handleClientHandler srv old_client (ws_input RecvTimeout [])
       = (srv, EvLog Info (logger srv)
                 "ignored client connection using protocol '%s', expected '%s'"
                 [ArgS "xevo-chisel-vOLD"; ArgS ProtocolVersion] :: rest)
       /\ forallb is_http rest = true
       /\ (reverseProxy srv = None ->
           chserver.URL old_client <> "/health" ->
           chserver.URL old_client <> "/version" ->
           rest = [EvWriteHeader 404; EvWrite "Not found"]).
Proof.
  assert (H1 : ToLower (chserver.Upgrade old_client) = "websocket")
    by reflexivity.
  assert (H2 : HasPrefix (chserver.SecWebSocketProtocol old_client)
                 "xevo-chisel-" = true) by reflexivity.
  assert (H3 : chserver.SecWebSocketProtocol old_client <> ProtocolVersion)
    by discriminate.
  exact (conj (conj H1 (conj H2 H3))
           (version_mismatch_falls_through srv old_client
              (ws_input RecvTimeout []) H1 H2 H3)).
Defined.

(** The old client is answered 404, and nothing else happens. *)
Example old_client_404 :
  chserver.handleClientHandler srv old_client (ws_input RecvTimeout [])
  = (srv, [EvLog Info (NewLogger "server")
             "ignored client connection using protocol '%s', expected '%s'"
             [ArgS "xevo-chisel-vOLD"; ArgS "xevo-chisel-v3"];
           EvWriteHeader 404; EvWrite "Not found"]).
Proof. reflexivity. Qed.

Lemma reverse_proxy_witness :
  matching_upgrade health_check = false
  /\ fst (chserver.handleClientHandler proxied health_check
            (ws_input RecvTimeout [])) = proxied
  /\ calls (snd (chserver.handleClientHandler proxied health_check
                   (ws_input RecvTimeout [])))
     = [EvProxyServeHTTP "http://backend"].
Proof.
  assert (H : matching_upgrade health_check = false) by reflexivity.
  exact (conj H (reverse_proxy_takes_all proxied health_check
                   (ws_input RecvTimeout []) H)).
Defined.

(** Without the proxy the same request gets the built-in answer. *)
Example health_without_proxy :
  snd (chserver.handleClientHandler srv health_check (ws_input RecvTimeout []))
  = [EvWrite ("OK" ++ LF)].
Proof. reflexivity. Qed.

(** [authUser] on the one-user server: the right password is accepted and
    recorded, a wrong one and an unknown name are refused. *)
Example alice_accepted :
  chserver.authUser srv alice_conn "secret"
  = (set_sessions {["sid-1" := alice]} srv, [], None).
Proof. vm_compute. reflexivity. Qed.

Example alice_wrong_password :
  snd (chserver.authUser srv alice_conn "Secret")
  = Some (ErrorsNew "Invalid authentication for username: %s").
Proof. reflexivity. Qed.

Example mallory_refused :
  snd (chserver.authUser srv (chserver.mkConnMetadata "mallory" "sid-2") "secret")
  = Some (ErrorsNew "Invalid authentication for username: %s").
Proof. reflexivity. Qed.

Example anyone_accepted_without_users :
  chserver.authUser open_srv (chserver.mkConnMetadata "mallory" "sid-2") "x"
  = (open_srv, [], None).
Proof. reflexivity. Qed.

(** C7 as the claim words it fails on the comparison: two wrong
    passwords of the length of carol's are both refused, but the one that
    is wrong in its first byte costs one byte comparison and the one that
    is wrong in its last byte costs 128.  The passwords are not compared
    in constant time. *)
Lemma password_comparison_not_constant_time :
  (String.length LabPasswords.wrong_first
   = String.length LabPasswords.long_secret
   /\ String.length LabPasswords.wrong_last
      = String.length LabPasswords.long_secret)
  /\ (snd (chserver.authUser LabPasswords.carol_srv LabPasswords.carol_conn
             LabPasswords.wrong_first)
      = Some (ErrorsNew "Invalid authentication for username: %s")
      /\ snd (chserver.authUser LabPasswords.carol_srv LabPasswords.carol_conn
                LabPasswords.wrong_last)
         = Some (ErrorsNew "Invalid authentication for username: %s"))
  /\ (authUser_compared LabPasswords.carol_srv LabPasswords.carol_conn
        LabPasswords.wrong_first = 1
      /\ authUser_compared LabPasswords.carol_srv LabPasswords.carol_conn
           LabPasswords.wrong_last = 128)
  /\ ~ compared_in_constant_time LabPasswords.carol_srv
         LabPasswords.carol_conn.
Proof.
  assert (H1 : authUser_compared LabPasswords.carol_srv
                 LabPasswords.carol_conn LabPasswords.wrong_first = 1)
    by (vm_compute; reflexivity).
  assert (H2 : authUser_compared LabPasswords.carol_srv
                 LabPasswords.carol_conn LabPasswords.wrong_last = 128)
    by (vm_compute; reflexivity).
  split; [split; vm_compute; reflexivity|].
  split; [split; vm_compute; reflexivity|].
  split; [by split|].
  intros CT.
  specialize (CT LabPasswords.wrong_first LabPasswords.wrong_last).
  rewrite H1, H2 in CT. discriminate CT. vm_compute. reflexivity.
Qed.

(** The right password of carol is accepted, after all its bytes have
    been compared, and her session can be looked up. *)
Example carol_accepted :
  snd (chserver.authUser LabPasswords.carol_srv LabPasswords.carol_conn
         LabPasswords.long_secret) = None
  /\ authUser_compared LabPasswords.carol_srv LabPasswords.carol_conn
       LabPasswords.long_secret = 128
  /\ sessions (fst (fst (chserver.authUser LabPasswords.carol_srv
                           LabPasswords.carol_conn LabPasswords.long_secret)))
       !! "sid-3" = Some LabPasswords.carol.
Proof. repeat split; vm_compute; reflexivity. Qed.

End FrontDoorRun.

(** ** The handshake *)
Section HandshakeFacts.
Context `{Ext : Externals}.

Lemma calls_app (a b : list Event) : calls (a ++ b) = calls a ++ calls b.
Proof. unfold calls. apply List.filter_app. Qed.

Lemma calls_log lvl l f args (tr : list Event) :
  calls (EvLog lvl l f args :: tr) = calls tr.
Proof. reflexivity. Qed.

Lemma calls_nil : calls (@nil Event) = [].
Proof. reflexivity. Qed.

Lemma calls_keep (e : Event) tr :
  is_log e = false -> calls (e :: tr) = e :: calls tr.
Proof. intros H. unfold calls. cbn [List.filter]. by rewrite H. Qed.

(** The callback writes to the session map and to nothing else, and all
    it emits is log lines. *)
Lemma authUser_frame s c password :
  (exists m, fst (fst (chserver.authUser s c password)) = set_sessions m s)
  /\ calls (snd (fst (chserver.authUser s c password))) = [].
Proof.
  unfold chserver.authUser.
  destruct (Nat.eqb _ 0).
  { split; [exists (sessions s); by destruct s | reflexivity]. }
  destruct (users s !! _) as [u|].
  - destruct (negb _); cbn [fst snd].
    + split; [exists (sessions s); by destruct s | reflexivity].
    + split; [eauto | reflexivity].
  - split; [exists (sessions s); by destruct s | reflexivity].
Qed.

Lemma set_sessions_twice (m m' : gmap string User) s :
  set_sessions m (set_sessions m' s) = set_sessions m s.
Proof. reflexivity. Qed.

Lemma passwordAuth_frame s c attempts :
  (exists m, fst (fst (chserver.passwordAuth s c attempts)) = set_sessions m s)
  /\ calls (snd (fst (chserver.passwordAuth s c attempts))) = [].
Proof.
  revert s. induction attempts as [|password rest IH]; intros s.
  - split; [exists (sessions s); by destruct s | reflexivity].
  - cbn [chserver.passwordAuth].
    destruct (authUser_frame s c password) as [[m Hm] Hc].
    destruct (chserver.authUser s c password) as [[s' tr] [e|]];
      cbn [fst snd] in *; subst s'.
    + destruct (IH (set_sessions m s)) as [[m' Hm'] Hc'].
      destruct (chserver.passwordAuth (set_sessions m s) c rest)
        as [[s'' tr'] ok]; cbn [fst snd] in *; subst s''.
      split; [eauto | by rewrite calls_app, Hc, Hc'].
    + split; [eauto | done].
Qed.

(** A handshake that succeeds on a server with users leaves the entry of
    the authenticated user under the session id. *)
Lemma passwordAuth_entry s c attempts s' tr :
  chserver.passwordAuth s c attempts = (s', tr, true) ->
  size (users s) <> 0 ->
  exists u, users s !! chserver.ConnUser c = Some u
            /\ sessions s' !! chserver.SessionID c = Some u.
Proof.
  revert s tr. induction attempts as [|password rest IH]; intros s tr H Hn.
  - discriminate.
  - cbn [chserver.passwordAuth] in H. rewrite authUser_cases in H.
    destruct (Nat.eqb_spec (size (users s)) 0) as [|_]; [contradiction|].
    destruct (users s !! chserver.ConnUser c) as [u|] eqn:Hu.
    + destruct (String.eqb (Pass u) password).
      * injection H as <- _. exists u. split; [done|]. apply lookup_insert_eq.
      * destruct (chserver.passwordAuth s c rest) as [[s2 tr2] ok] eqn:E.
        injection H as -> _ ->. rewrite <- Hu. eauto.
    + destruct (chserver.passwordAuth s c rest) as [[s2 tr2] ok] eqn:E.
      injection H as -> _ ->. destruct (IH _ _ E Hn) as (u & Hu' & _).
      congruence.
Qed.

Lemma NewServerConn_frame s h :
  (exists m, fst (fst (chserver.NewServerConn s h)) = set_sessions m s)
  /\ calls (snd (fst (chserver.NewServerConn s h))) = [].
Proof.
  unfold chserver.NewServerConn.
  pose proof (passwordAuth_frame s (chserver.Meta h) (chserver.Attempts h)) as F.
  destruct (chserver.passwordAuth _ _ _) as [[s' tr] ok].
  by destruct ok.
Qed.

Lemma NewServerConn_entry s h s' tr :
  chserver.NewServerConn s h = (s', tr, None) ->
  size (users s) <> 0 ->
  exists u, users s !! chserver.ConnUser (chserver.Meta h) = Some u
            /\ sessions s' !! chserver.SessionID (chserver.Meta h) = Some u.
Proof.
  unfold chserver.NewServerConn.
  destruct (chserver.passwordAuth _ _ _) as [[s1 tr1] ok] eqn:E.
  destruct ok; [|discriminate]. intros [= <- _ _]. by eapply passwordAuth_entry.
Qed.

End HandshakeFacts.

(** ** The session-to-user map *)
Section SessionMap.
Context `{Ext : Externals}.

Lemma NewServerConn_users s h :
  users (fst (fst (chserver.NewServerConn s h))) = users s.
Proof. destruct (NewServerConn_frame s h) as [[m ->] _]. reflexivity. Qed.

(** What [handleWebsocket] leaves in the session map once the handshake
    has succeeded, whichever way the configuration step goes. *)
Lemma handleWebsocket_sessions s inp s1 htr :
  chserver.UpgradeErr inp = None ->
  chserver.NewServerConn (set_sessCount (AddInt32 (sessCount s) 1) s)
    (chserver.Peer inp) = (s1, htr, None) ->
  sessions (fst (chserver.handleWebsocket s inp))
  = if Nat.ltb 0 (size (users s))
    then delete (chserver.SessionID (chserver.Meta (chserver.Peer inp)))
           (sessions s1)
    else sessions s1.
Proof.
  intros Hup Hhs.
  pose proof (NewServerConn_users
                (set_sessCount (AddInt32 (sessCount s) 1) s)
                (chserver.Peer inp)) as Hu.
  rewrite Hhs in Hu. cbn [fst users set_sessCount] in Hu.
  unfold chserver.handleWebsocket. cbv zeta. rewrite Hup, Hhs, Hu.
  destruct (Nat.ltb 0 (size (users s)));
    repeat (case_match; cbn [fst sessions set_sessions]); reflexivity.
Qed.

Lemma runWithSSHConn_sessions (ps : ProxySSHSession.ProxySSHSession) inp :
  sessions (ProxySSHSession.server
              (fst (fst (ProxySSHSession.runWithSSHConn ps inp))))
  = if Nat.ltb 0 (size (users (ProxySSHSession.server ps)))
    then delete (chserver.SessionID (chserver.Meta (SPeer inp)))
           (sessions (ProxySSHSession.server ps))
    else sessions (ProxySSHSession.server ps).
Proof.
  unfold ProxySSHSession.runWithSSHConn. cbv zeta.
  destruct (Nat.ltb 0 (size (users (ProxySSHSession.server ps))));
    repeat (case_match;
            cbn [fst sessions set_sessions ProxySSHSession.server
                 ProxySSHSession.with_server]); reflexivity.
Qed.

Lemma Run_sessions (ps : ProxySSHSession.ProxySSHSession) inp s1 htr :
  chserver.NewServerConn (ProxySSHSession.server ps) (SPeer inp)
  = (s1, htr, None) ->
  sessions (ProxySSHSession.server (fst (fst (ProxySSHSession.Run ps inp))))
  = if Nat.ltb 0 (size (users (ProxySSHSession.server ps)))
    then delete (chserver.SessionID (chserver.Meta (SPeer inp))) (sessions s1)
    else sessions s1.
Proof.
  intros Hhs.
  pose proof (NewServerConn_users (ProxySSHSession.server ps) (SPeer inp)) as Hu.
  rewrite Hhs in Hu. cbn [fst] in Hu.
  pose proof (runWithSSHConn_sessions (ProxySSHSession.with_server s1 ps) inp)
    as R.
  cbn [ProxySSHSession.server ProxySSHSession.with_server] in R.
  rewrite Hu in R.
  unfold ProxySSHSession.Run. cbv zeta. rewrite Hhs.
  destruct (ProxySSHSession.runWithSSHConn _ inp) as [[ps' tr] [err|]];
    exact R.
Qed.

End SessionMap.

(** ** The configuration step of [handleWebsocket] *)
Section ConfigStep.
Context `{Ext : Externals}.

Lemma NewServerConn_same s h s1 htr e :
  chserver.NewServerConn s h = (s1, htr, e) ->
  logger s1 = logger s /\ users s1 = users s /\ reverseOk s1 = reverseOk s
  /\ socksServer s1 = socksServer s /\ calls htr = [].
Proof.
  intros H. destruct (NewServerConn_frame s h) as [[m Hm] Hc].
  rewrite H in Hm, Hc. cbn [fst snd] in Hm, Hc. by subst s1.
Qed.

(** With reverse tunnelling off, the guard of the first loop fires on the
    reverse routes. *)
Lemma reverse_guard (cds : list ChannelDescriptor) :
  existsb (fun chd => Reverse chd && negb false) cds = existsb Reverse cds.
Proof.
  induction cds as [|chd cds IH]; [done|].
  cbn [existsb]. rewrite IH. by destruct (Reverse chd).
Qed.

(** The rewriting steps shared by the lemmas of this section: open the
    handler, feed it the answers assumed, and read the calls off. *)
Ltac open_ws Hup Hhs :=
  let F := fresh "F" in
  pose proof (NewServerConn_same _ _ _ _ _ Hhs) as F;
  cbn [logger users reverseOk socksServer set_sessCount] in F;
  destruct F as (Hlog & Husers & Hrev & Hsocks & Hcalls);
  unfold chserver.handleWebsocket; cbv zeta; rewrite Hup, Hhs, Husers.

Ltac read_calls Hcalls :=
  cbn [fst snd negb logger reverseOk set_sessions set_sessCount
       chserver.failed];
  repeat first
    [ rewrite calls_app | rewrite calls_log | rewrite calls_nil
    | rewrite Hcalls | rewrite calls_keep by reflexivity ];
  cbn [app].

Variables (s s1 : Server) (inp : chserver.WsInput) (htr : list Event).
Hypothesis Hup : chserver.UpgradeErr inp = None.
Hypothesis Hhs :
  chserver.NewServerConn (set_sessCount (AddInt32 (sessCount s) 1) s)
    (chserver.Peer inp) = (s1, htr, None).

Lemma ws_timeout :
  chserver.First inp = RecvTimeout ->
  calls (snd (chserver.handleWebsocket s inp)) = [EvUpgrade None; EvSSHClose].
Proof.
  intros Hf. open_ws Hup Hhs. rewrite Hf.
  destruct (Nat.ltb 0 _); read_calls Hcalls; reflexivity.
Qed.

Lemma ws_wrong_type r :
  chserver.First inp = RecvReq r ->
  ReqType r <> "config" ->
  calls (snd (chserver.handleWebsocket s inp))
  = [EvUpgrade None;
     EvReply r false
       (Some (ErrorText (Errorf (logger s) "expecting config request" [])))].
Proof.
  intros Hf Ht. open_ws Hup Hhs. rewrite Hf.
  destruct (String.eqb_spec (ReqType r) "config"); [contradiction|].
  destruct (Nat.ltb 0 _); read_calls Hcalls; by rewrite Hlog.
Qed.

Lemma ws_bad_payload r e :
  chserver.First inp = RecvReq r ->
  ReqType r = "config" ->
  DecodeConfig (Payload r) = inl e ->
  calls (snd (chserver.handleWebsocket s inp))
  = [EvUpgrade None;
     EvReply r false
       (Some (ErrorText (Errorf (logger s) "invalid config" [])))].
Proof.
  intros Hf Ht Hd. open_ws Hup Hhs. rewrite Hf, Ht, Hd.
  change (String.eqb "config" "config") with true.
  destruct (Nat.ltb 0 _); read_calls Hcalls; by rewrite Hlog.
Qed.

Lemma ws_reverse_denied r c :
  chserver.First inp = RecvReq r ->
  ReqType r = "config" ->
  DecodeConfig (Payload r) = inr c ->
  existsb Reverse (ChannelDescriptors c) = true ->
  reverseOk s = false ->
  calls (snd (chserver.handleWebsocket s inp))
  = [EvUpgrade None;
     EvReply r false
       (Some (ErrorText
                (Errorf (logger s)
                   "Reverse port forwaring not enabled on server" [])))].
Proof.
  intros Hf Ht Hd Hr Hok. open_ws Hup Hhs. rewrite Hf, Ht, Hd.
  change (String.eqb "config" "config") with true.
  assert (forall srv, reverseOk srv = false ->
            existsb (fun chd => Reverse chd && negb (reverseOk srv))
              (ChannelDescriptors c) = true) as E.
  { intros srv ->. by rewrite reverse_guard. }
  destruct (Nat.ltb 0 _); cbn [fst snd];
    (rewrite E by (cbn [reverseOk set_sessions]; congruence));
    destruct (negb (String.eqb (Version c) BuildVersion));
    read_calls Hcalls; by rewrite Hlog.
Qed.

Lemma ws_access_denied r c u chd :
  chserver.First inp = RecvReq r ->
  ReqType r = "config" ->
  DecodeConfig (Payload r) = inr c ->
  existsb (fun chd => Reverse chd && negb (reverseOk s))
    (ChannelDescriptors c) = false ->
  size (users s) <> 0 ->
  sessions s1 !! chserver.SessionID (chserver.Meta (chserver.Peer inp))
  = Some u ->
  List.find (fun chd => negb (HasAccess u (ChannelDescriptor_String chd)))
    (ChannelDescriptors c) = Some chd ->
  calls (snd (chserver.handleWebsocket s inp))
  = [EvUpgrade None;
     EvReply r false
       (Some (ErrorText
                (Errorf (logger s) "access to '%s' denied"
                   [ArgS (ChannelDescriptor_String chd)])))].
Proof.
  intros Hf Ht Hd Hr Hn Hu Hfind. open_ws Hup Hhs. rewrite Hf, Ht, Hd.
  change (String.eqb "config" "config") with true.
  destruct (Nat.ltb_spec 0 (size (users s))); [|lia].
  cbn [fst snd reverseOk set_sessions]. rewrite Hrev, Hr, Hu, Hfind.
  destruct (negb (String.eqb (Version c) BuildVersion));
    read_calls Hcalls; by rewrite Hlog.
Qed.

End ConfigStep.

(** ** The configuration step of [ProxySSHSession.Run] *)
Section SessionConfigStep.
Context `{Ext : Externals}.

Ltac open_run Hhs :=
  let F := fresh "F" in
  pose proof (NewServerConn_same _ _ _ _ _ Hhs) as F;
  destruct F as (Hlog & Husers & Hrev & Hsocks & Hcalls);
  unfold ProxySSHSession.Run, ProxySSHSession.runWithSSHConn; cbv zeta;
  rewrite Hhs;
  cbn [ProxySSHSession.server ProxySSHSession.with_server
       ProxySSHSession.Logger_];
  rewrite Husers.

Ltac read_run Hcalls :=
  cbn [fst snd negb ProxySSHSession.server ProxySSHSession.with_server
       ProxySSHSession.Logger_ ProxySSHSession.failed
       ProxySSHSession.sendSSHErrorReply ProxySSHSession.sendSSHReply
       ProxySSHSession.receiveSSHRequest reverseOk set_sessions];
  repeat first
    [ rewrite calls_app | rewrite calls_log | rewrite calls_nil
    | rewrite Hcalls | rewrite calls_keep by reflexivity ];
  cbn [app].

Variables (ps : ProxySSHSession.ProxySSHSession) (inp : SessionInput).
Variables (p1 : Server) (htr : list Event).
Hypothesis Hhs :
  chserver.NewServerConn (ProxySSHSession.server ps) (SPeer inp)
  = (p1, htr, None).

Lemma run_timeout err :
  SFirst inp = CtxDone err ->
  calls (snd (fst (ProxySSHSession.Run ps inp)))
  = [EvCancel; EvSSHClose; EvCloseDone].
Proof.
  intros Hf. open_run Hhs. rewrite Hf.
  destruct (Nat.ltb 0 _); read_run Hcalls; reflexivity.
Qed.

Lemma run_wrong_type r :
  SFirst inp = CtxReq r ->
  ReqType r <> "config" ->
  calls (snd (fst (ProxySSHSession.Run ps inp)))
  = [EvGo "r.Reply"
       [EvReply r false
          (Some (ErrorText
                   (DebugErrorf (ProxySSHSession.Logger_ ps)
                      ("Expecting " ++ DQ ++ "config" ++ DQ
                         ++ " request, got " ++ DQ ++ "%s" ++ DQ)
                      [ArgS (ReqType r)])))];
     EvCancel; EvSSHClose; EvCloseDone].
Proof.
  intros Hf Ht. open_run Hhs. rewrite Hf.
  cbn [ProxySSHSession.receiveSSHRequest].
  destruct (String.eqb_spec (ReqType r) "config"); [contradiction|].
  destruct (Nat.ltb 0 _); read_run Hcalls; reflexivity.
Qed.

Lemma run_bad_payload r e :
  SFirst inp = CtxReq r ->
  ReqType r = "config" ->
  DecodeConfig (Payload r) = inl e ->
  calls (snd (fst (ProxySSHSession.Run ps inp)))
  = [EvGo "r.Reply"
       [EvReply r false
          (Some (ErrorText
                   (DebugErrorf (ProxySSHSession.Logger_ ps)
                      "Invalid session config request encoding: %s"
                      [ArgE e])))];
     EvCancel; EvSSHClose; EvCloseDone].
Proof.
  intros Hf Ht Hd. open_run Hhs. rewrite Hf.
  cbn [ProxySSHSession.receiveSSHRequest]. rewrite Ht, Hd.
  change (String.eqb "config" "config") with true.
  destruct (Nat.ltb 0 _); read_run Hcalls; reflexivity.
Qed.

Lemma run_reverse_denied r c :
  SFirst inp = CtxReq r ->
  ReqType r = "config" ->
  DecodeConfig (Payload r) = inr c ->
  existsb Reverse (ChannelDescriptors c) = true ->
  reverseOk (ProxySSHSession.server ps) = false ->
  calls (snd (fst (ProxySSHSession.Run ps inp)))
  = [EvGo "r.Reply"
       [EvReply r false
          (Some (ErrorText
                   (DebugErrorf (ProxySSHSession.Logger_ ps)
                      "Reverse port forwarding not enabled on server" [])))];
     EvCancel; EvSSHClose; EvCloseDone].
Proof.
  intros Hf Ht Hd Hr Hok. open_run Hhs. rewrite Hf.
  cbn [ProxySSHSession.receiveSSHRequest]. rewrite Ht, Hd.
  change (String.eqb "config" "config") with true.
  rewrite Hok in Hrev.
  destruct (Nat.ltb 0 _);
    cbn [fst snd negb ProxySSHSession.server ProxySSHSession.with_server
         reverseOk set_sessions];
    rewrite Hrev, reverse_guard, Hr;
    destruct (negb (String.eqb (Version c) BuildVersion));
    read_run Hcalls; reflexivity.
Qed.

Lemma run_access_denied r c u chd :
  SFirst inp = CtxReq r ->
  ReqType r = "config" ->
  DecodeConfig (Payload r) = inr c ->
  existsb (fun chd => Reverse chd
                      && negb (reverseOk (ProxySSHSession.server ps)))
    (ChannelDescriptors c) = false ->
  size (users (ProxySSHSession.server ps)) <> 0 ->
  sessions p1 !! chserver.SessionID (chserver.Meta (SPeer inp)) = Some u ->
  List.find (fun chd => negb (HasAccess u (ChannelDescriptor_String chd)))
    (ChannelDescriptors c) = Some chd ->
  calls (snd (fst (ProxySSHSession.Run ps inp)))
  = [EvGo "r.Reply"
       [EvReply r false
          (Some (ErrorText
                   (DebugErrorf (ProxySSHSession.Logger_ ps)
                      ("Access to " ++ DQ ++ "%s" ++ DQ ++ " denied")
                      [ArgS (ChannelDescriptor_String chd)])))];
     EvCancel; EvSSHClose; EvCloseDone].
Proof.
  intros Hf Ht Hd Hr Hn Hu Hfind. open_run Hhs. rewrite Hf.
  cbn [ProxySSHSession.receiveSSHRequest]. rewrite Ht, Hd.
  change (String.eqb "config" "config") with true.
  destruct (Nat.ltb_spec 0 (size (users (ProxySSHSession.server ps)))); [|lia].
  cbn [fst snd negb ProxySSHSession.server ProxySSHSession.with_server
       reverseOk set_sessions].
  rewrite Hrev, Hr, Hu, Hfind.
  destruct (negb (String.eqb (Version c) BuildVersion));
    read_run Hcalls; reflexivity.
Qed.

End SessionConfigStep.

(** ** Inbound channel opens *)
Section ChannelOpens.
Context `{Ext : Externals}.

(** The loop of [chserver.handleSSHChannels] serves the opens one after
    the other; what it does for one does not depend on the others. *)
Lemma handleSSHChannels_app s clog (pre post : list NewChannel) :
  chserver.handleSSHChannels s clog (pre ++ post)
  = chserver.handleSSHChannels s clog pre
    ++ chserver.handleSSHChannels s clog post.
Proof.
  induction pre as [|ch pre IH]; [done|].
  cbn [app chserver.handleSSHChannels]. by rewrite IH, List.app_assoc.
Qed.

Lemma handleSSHChannels_at s clog pre ch post :
  calls (chserver.handleSSHChannels s clog (pre ++ ch :: post))
  = calls (chserver.handleSSHChannels s clog pre)
    ++ calls (chserver.handleSSHChannels s clog [ch])
    ++ calls (chserver.handleSSHChannels s clog post).
Proof.
  change (ch :: post) with ([ch] ++ post).
  by rewrite !handleSSHChannels_app, !calls_app.
Qed.

Ltac read_open :=
  repeat first
    [ rewrite calls_app | rewrite calls_log | rewrite calls_nil
    | rewrite calls_keep by reflexivity ];
  cbn [app].

(** What [chserver.handleSSHChannels] does with one open, by the checks
    it goes through. *)
Lemma open_bad_json s clog ch :
  Unmarshal (ExtraData ch) = None ->
  calls (chserver.handleSSHChannels s clog [ch])
  = [EvReject ch UnknownChannelType (Lit "Bad JSON ExtraData")].
Proof. intros H. cbn [chserver.handleSSHChannels]. rewrite H. by read_open. Qed.

Lemma open_not_skeleton s clog ch epd :
  Unmarshal (ExtraData ch) = Some epd ->
  Role epd <> ChannelEndpointRoleSkeleton ->
  calls (chserver.handleSSHChannels s clog [ch])
  = [EvReject ch Prohibited (Lit "Role must be skeleton")].
Proof.
  intros H Hr. cbn [chserver.handleSSHChannels]. rewrite H.
  rewrite bool_decide_eq_false_2 by done. cbn [negb]. by read_open.
Qed.

Lemma open_stdio s clog ch epd :
  Unmarshal (ExtraData ch) = Some epd ->
  Role epd = ChannelEndpointRoleSkeleton ->
  Type_ epd = ChannelEndpointTypeStdio ->
  calls (chserver.handleSSHChannels s clog [ch])
  = [EvReject ch Prohibited (Lit "Server-side STDIO not supported")].
Proof.
  intros H Hr Ht. cbn [chserver.handleSSHChannels]. rewrite H, Ht.
  rewrite bool_decide_eq_true_2 by done. cbn [negb]. by read_open.
Qed.

Lemma open_socks_disabled s clog ch epd :
  Unmarshal (ExtraData ch) = Some epd ->
  Role epd = ChannelEndpointRoleSkeleton ->
  Type_ epd = ChannelEndpointTypeSocks ->
  socksServer s = false ->
  calls (chserver.handleSSHChannels s clog [ch])
  = [EvReject ch Prohibited (Lit "SOCKS5 is not enabled on the server")].
Proof.
  intros H Hr Ht Hs. cbn [chserver.handleSSHChannels]. rewrite H, Ht, Hs.
  rewrite bool_decide_eq_true_2 by done. cbn [negb]. by read_open.
Qed.

Lemma open_tcp s clog ch epd :
  Unmarshal (ExtraData ch) = Some epd ->
  Role epd = ChannelEndpointRoleSkeleton ->
  Type_ epd = ChannelEndpointTypeTCP ->
  AcceptErr ch = None ->
  calls (chserver.handleSSHChannels s clog [ch])
  = [EvAccept ch None;
     EvGo "ssh.DiscardRequests" [];
     EvConnStats "New";
     EvGo "chshare.HandleTCPStream"
       [EvHandleTCPStream (Fork clog "conn#%d" [ConnID ch]) ch (Path epd)]].
Proof.
  intros H Hr Ht Ha. cbn [chserver.handleSSHChannels]. rewrite H, Ht, Ha.
  rewrite bool_decide_eq_true_2 by done. cbn [negb]. by read_open.
Qed.

(** What [ProxySSHSession.handleSSHNewChannel] does with one open. *)
Lemma session_open_bad_json (ps : ProxySSHSession.ProxySSHSession) ch :
  Unmarshal (ExtraData ch) = None ->
  calls (fst (ProxySSHSession.handleSSHNewChannel ps ch))
  = [EvReject ch UnknownChannelType
       (ErrorText (Errorf (logger (ProxySSHSession.server ps))
                     "Badly formatted NewChannel request" []))].
Proof.
  intros H. unfold ProxySSHSession.handleSSHNewChannel. cbv zeta.
  rewrite H. reflexivity.
Qed.

Lemma session_open_refused (ps : ProxySSHSession.ProxySSHSession) ch epd err :
  Unmarshal (ExtraData ch) = Some epd ->
  NewLocalSkeletonChannelEndpoint (ProxySSHSession.Logger_ ps)
    (ProxySSHSession.env ps) epd = inl err ->
  calls (fst (ProxySSHSession.handleSSHNewChannel ps ch))
  = [EvReject ch Prohibited (ErrorText err)].
Proof.
  intros H Hn. unfold ProxySSHSession.handleSSHNewChannel. cbv zeta.
  rewrite H, Hn. reflexivity.
Qed.

Lemma session_open_served (ps : ProxySSHSession.ProxySSHSession) ch epd ep :
  Unmarshal (ExtraData ch) = Some epd ->
  NewLocalSkeletonChannelEndpoint (ProxySSHSession.Logger_ ps)
    (ProxySSHSession.env ps) epd = inr ep ->
  AcceptErr ch = None ->
  WrapErr ch = None ->
  calls (fst (ProxySSHSession.handleSSHNewChannel ps ch))
  = [EvAccept ch None;
     EvGo "ssh.DiscardRequests" [];
     EvDialAndServe ep ch (DialAndServeResult ch)].
Proof.
  intros H Hn Ha Hw. unfold ProxySSHSession.handleSSHNewChannel. cbv zeta.
  rewrite H, Hn, Ha, Hw. destruct (DialAndServeResult ch) as [[a b] [e|]];
    reflexivity.
Qed.

End ChannelOpens.

(** ** The claims on channel opens *)
Section ChannelClaims.
Context `{Ext : Externals}.

(** C5.  Wherever an open stands in the stream of inbound opens: if its
    extra data does not decode it is rejected with reason
    UnknownChannelType; if the decoded descriptor has a role other than
    Skeleton it is rejected with reason Prohibited; if it has type Stdio
    it is rejected (with reason Prohibited, for the role or for the type).
    The same holds of [ProxySSHSession.handleSSHNewChannel], where every
    descriptor that [NewLocalSkeletonChannelEndpoint] refuses is rejected
    with reason Prohibited. *)
Theorem malformed_opens_rejected s clog (ps : ProxySSHSession.ProxySSHSession)
    pre ch post :
  match Unmarshal (ExtraData ch) with
  | None =>
      calls (chserver.handleSSHChannels s clog (pre ++ ch :: post))
      = calls (chserver.handleSSHChannels s clog pre)
        ++ EvReject ch UnknownChannelType (Lit "Bad JSON ExtraData")
        :: calls (chserver.handleSSHChannels s clog post)
      /\ calls (fst (ProxySSHSession.handleSSHNewChannel ps ch))
         = [EvReject ch UnknownChannelType
              (ErrorText (Errorf (logger (ProxySSHSession.server ps))
                            "Badly formatted NewChannel request" []))]
  | Some epd =>
      (Role epd <> ChannelEndpointRoleSkeleton ->
       calls (chserver.handleSSHChannels s clog (pre ++ ch :: post))
       = calls (chserver.handleSSHChannels s clog pre)
         ++ EvReject ch Prohibited (Lit "Role must be skeleton")
         :: calls (chserver.handleSSHChannels s clog post))
      /\ (Type_ epd = ChannelEndpointTypeStdio ->
          calls (chserver.handleSSHChannels s clog (pre ++ ch :: post))
          = calls (chserver.handleSSHChannels s clog pre)
            ++ EvReject ch Prohibited
                 (Lit (if bool_decide (Role epd = ChannelEndpointRoleSkeleton)
                       then "Server-side STDIO not supported"
                       else "Role must be skeleton"))
            :: calls (chserver.handleSSHChannels s clog post))
      /\ (forall err,
            NewLocalSkeletonChannelEndpoint (ProxySSHSession.Logger_ ps)
              (ProxySSHSession.env ps) epd = inl err ->
            calls (fst (ProxySSHSession.handleSSHNewChannel ps ch))
            = [EvReject ch Prohibited (ErrorText err)])
  end.
Proof.
  destruct (Unmarshal (ExtraData ch)) as [epd|] eqn:H.
  - split; [|split].
    + intros Hr. rewrite handleSSHChannels_at.
      by rewrite (open_not_skeleton _ _ _ _ H Hr).
    + intros Ht. rewrite handleSSHChannels_at. case_bool_decide as Hr.
      * by rewrite (open_stdio _ _ _ _ H Hr Ht).
      * by rewrite (open_not_skeleton _ _ _ _ H Hr).
    + intros err Hn. by eapply session_open_refused.
  - split.
    + rewrite handleSSHChannels_at. by rewrite (open_bad_json _ _ _ H).
    + by apply session_open_bad_json.
Qed.

(** C6.  On a server without SOCKS5 an open with a SOCKS skeleton
    descriptor is rejected with reason Prohibited and the text [SOCKS5 is
    not enabled on the server]; the loop goes on with the opens that
    follow as if the rejected one had not been there, and a TCP skeleton
    open that follows it is accepted and handed to the TCP stream
    handler. *)
Theorem socks_disabled_rejects_one_open s clog pre ch epd post ch' epd' :
  socksServer s = false ->
  Unmarshal (ExtraData ch) = Some epd ->
  Role epd = ChannelEndpointRoleSkeleton ->
  Type_ epd = ChannelEndpointTypeSocks ->
  Unmarshal (ExtraData ch') = Some epd' ->
  Role epd' = ChannelEndpointRoleSkeleton ->
  Type_ epd' = ChannelEndpointTypeTCP ->
  AcceptErr ch' = None ->
  calls (chserver.handleSSHChannels s clog (pre ++ ch :: post))
  = calls (chserver.handleSSHChannels s clog pre)
    ++ EvReject ch Prohibited (Lit "SOCKS5 is not enabled on the server")
    :: calls (chserver.handleSSHChannels s clog post)
  /\ calls (chserver.handleSSHChannels s clog (pre ++ ch :: ch' :: post))
     = calls (chserver.handleSSHChannels s clog pre)
       ++ EvReject ch Prohibited (Lit "SOCKS5 is not enabled on the server")
       :: EvAccept ch' None
       :: EvGo "ssh.DiscardRequests" []
       :: EvConnStats "New"
       :: EvGo "chshare.HandleTCPStream"
            [EvHandleTCPStream (Fork clog "conn#%d" [ConnID ch']) ch'
               (Path epd')]
       :: calls (chserver.handleSSHChannels s clog post).
Proof.
  intros Hs H Hr Ht H' Hr' Ht' Ha'. split.
  - rewrite handleSSHChannels_at.
    by rewrite (open_socks_disabled _ _ _ _ H Hr Ht Hs).
  - rewrite handleSSHChannels_at.
    rewrite (open_socks_disabled _ _ _ _ H Hr Ht Hs).
    change (ch' :: post) with ([] ++ ch' :: post).
    rewrite handleSSHChannels_at.
    by rewrite (open_tcp _ _ _ _ H' Hr' Ht' Ha').
Qed.

End ChannelClaims.

Section ChannelClaimsRun.
Import Lab.

Lemma socks_disabled_witness :
  (socksServer srv = false
   /\ Unmarshal (ExtraData open_socks) = Some socks
   /\ Role socks = ChannelEndpointRoleSkeleton
   /\ Type_ socks = ChannelEndpointTypeSocks
   /\ Unmarshal (ExtraData open9001) = Some skel9001
   /\ Role skel9001 = ChannelEndpointRoleSkeleton
   /\ Type_ skel9001 = ChannelEndpointTypeTCP
   /\ AcceptErr open9001 = None)
  /\ calls (chserver.handleSSHChannels srv clog ([] ++ open_socks :: []))
     = calls (chserver.handleSSHChannels srv clog [])
       ++ EvReject open_socks Prohibited
            (Lit "SOCKS5 is not enabled on the server")
       :: calls (chserver.handleSSHChannels srv clog [])
  /\ calls (chserver.handleSSHChannels srv clog
              ([] ++ open_socks :: open9001 :: []))
     = calls (chserver.handleSSHChannels srv clog [])
       ++ EvReject open_socks Prohibited
            (Lit "SOCKS5 is not enabled on the server")
       :: EvAccept open9001 None
       :: EvGo "ssh.DiscardRequests" []
       :: EvConnStats "New"
       :: EvGo "chshare.HandleTCPStream"
            [EvHandleTCPStream (Fork clog "conn#%d" [ConnID open9001])
               open9001 (Path skel9001)]
       :: calls (chserver.handleSSHChannels srv clog []).
Proof.
  split.
  - repeat split; reflexivity.
  - exact (socks_disabled_rejects_one_open srv clog [] open_socks socks []
             open9001 skel9001 eq_refl eq_refl eq_refl eq_refl eq_refl
             eq_refl eq_refl eq_refl).
Defined.

(** The three rejections of C5, run. *)
Example garbage_rejected :
  calls (chserver.handleSSHChannels srv clog [open_garbage])
  = [EvReject open_garbage UnknownChannelType (Lit "Bad JSON ExtraData")]
  /\ calls (fst (ProxySSHSession.handleSSHNewChannel session open_garbage))
     = [EvReject open_garbage UnknownChannelType
          (ErrorText (Errorf (NewLogger "server")
                        "Badly formatted NewChannel request" []))].
Proof. split; reflexivity. Qed.

Example stub_rejected :
  calls (chserver.handleSSHChannels srv clog [open_stub])
  = [EvReject open_stub Prohibited (Lit "Role must be skeleton")].
Proof. reflexivity. Qed.

Example stdio_rejected :
  calls (chserver.handleSSHChannels srv clog [open_stdio])
  = [EvReject open_stdio Prohibited (Lit "Server-side STDIO not supported")].
Proof. reflexivity. Qed.

(** The same opens on [ProxySSHSession.handleSSHNewChannel], with the
    endpoint constructor of [Lab]. *)
Example session_stub_rejected :
  calls (fst (ProxySSHSession.handleSSHNewChannel session open_stub))
  = [EvReject open_stub Prohibited
       (ErrorText
          (Errorf (Fork (NewLogger "server") "SSHSession#%d" [1%Z])
             "Role must be skeleton: %s" [ArgEpdLong stub3000]))].
Proof. reflexivity. Qed.

Example session_stdio_rejected :
  calls (fst (ProxySSHSession.handleSSHNewChannel session open_stdio))
  = [EvReject open_stdio Prohibited
       (ErrorText
          (Errorf (Fork (NewLogger "server") "SSHSession#%d" [1%Z])
             "stdio endpoints are not allowed on the server: %s"
             [ArgEpdLong stdio]))].
Proof. reflexivity. Qed.

End ChannelClaimsRun.

(** ** The claims on the configuration step *)
Section ConfigClaims.
Context `{Ext : Externals}.

(** Log lines carry none of the events the projections look for. *)
Lemma projection_calls (P : Event -> bool) (tr : list Event) :
  (forall lvl l f args, P (EvLog lvl l f args) = false) ->
  List.filter P (everything tr) = List.filter P (everything (calls tr)).
Proof.
  intros HP. induction tr as [|e tr IH]; [done|].
  unfold everything in *. cbn [List.flat_map].
  destruct (is_log e) eqn:E.
  - destruct e; try discriminate. rewrite calls_log.
    cbn [unfold_event app List.filter]. by rewrite HP.
  - rewrite calls_keep by done. cbn [List.flat_map].
    by rewrite !List.filter_app, IH.
Qed.

Lemma replies_calls tr : replies tr = replies (calls tr).
Proof. by apply projection_calls. Qed.

Lemma serving_calls tr : serving tr = serving (calls tr).
Proof. by apply projection_calls. Qed.

Lemma accepted_calls tr : accepted tr = accepted (calls tr).
Proof. by apply projection_calls. Qed.

Lemma closes_calls tr : closes tr = closes (calls tr).
Proof. by apply projection_calls. Qed.

Lemma stubs_calls tr : stubs tr = stubs (calls tr).
Proof. by apply projection_calls. Qed.

(** C9.  On a server with users, once the handshake has succeeded the
    session map holds the entry the password callback stored under the
    session id; the session removes it in its configuration step, so that
    whatever way the session then goes (time-out, refusal, service until
    the connection ends) the map it leaves behind is the map after the
    handshake without that entry.  This holds of [handleWebsocket] and of
    [ProxySSHSession.Run]. *)
Theorem session_entry_taken_and_deleted
    s inp s1 htr (ps : ProxySSHSession.ProxySSHSession) sinp p1 ptr :
  chserver.UpgradeErr inp = None ->
  chserver.NewServerConn (set_sessCount (AddInt32 (sessCount s) 1) s)
    (chserver.Peer inp) = (s1, htr, None) ->
  size (users s) <> 0 ->
  chserver.NewServerConn (ProxySSHSession.server ps) (SPeer sinp)
  = (p1, ptr, None) ->
  size (users (ProxySSHSession.server ps)) <> 0 ->
  let sid := chserver.SessionID (chserver.Meta (chserver.Peer inp)) in
  let sid' := chserver.SessionID (chserver.Meta (SPeer sinp)) in
  (is_Some (sessions s1 !! sid)
   /\ sessions (fst (chserver.handleWebsocket s inp)) = delete sid (sessions s1)
   /\ sessions (fst (chserver.handleWebsocket s inp)) !! sid = None)
  /\ (is_Some (sessions p1 !! sid')
      /\ sessions (ProxySSHSession.server
                     (fst (fst (ProxySSHSession.Run ps sinp))))
         = delete sid' (sessions p1)
      /\ sessions (ProxySSHSession.server
                     (fst (fst (ProxySSHSession.Run ps sinp)))) !! sid' = None).
Proof.
  intros Hup Hhs Hn Hhs' Hn' sid sid'. split.
  - destruct (NewServerConn_entry _ _ _ _ Hhs Hn) as (u & _ & Hu).
    rewrite (handleWebsocket_sessions _ _ _ _ Hup Hhs).
    destruct (Nat.ltb_spec 0 (size (users s))); [|lia].
    split; [by exists u|]. split; [done|]. apply lookup_delete_eq.
  - destruct (NewServerConn_entry _ _ _ _ Hhs' Hn') as (u & _ & Hu).
    rewrite (Run_sessions _ _ _ _ Hhs').
    destruct (Nat.ltb_spec 0 (size (users (ProxySSHSession.server ps))));
      [|lia].
    split; [by exists u|]. split; [done|]. apply lookup_delete_eq.
Qed.

(** C3, as the code has it.  After a successful handshake: if no request
    arrives in the ten seconds, no reply is sent (there is no request to
    reply to), no goroutine is started to serve channel opens, and the SSH
    connection is closed.  If the first request is not of type [config],
    or its payload does not decode, that request is replied to with
    failure, once, and no goroutine is started to serve channel opens;
    [ProxySSHSession.Run] then closes the SSH connection. *)
Theorem config_step_failures
    s inp s1 htr (ps : ProxySSHSession.ProxySSHSession) sinp p1 ptr :
  chserver.UpgradeErr inp = None ->
  chserver.NewServerConn (set_sessCount (AddInt32 (sessCount s) 1) s)
    (chserver.Peer inp) = (s1, htr, None) ->
  chserver.NewServerConn (ProxySSHSession.server ps) (SPeer sinp)
  = (p1, ptr, None) ->
  let tr := snd (chserver.handleWebsocket s inp) in
  let tr' := snd (fst (ProxySSHSession.Run ps sinp)) in
  (* no request in time *)
  (chserver.First inp = RecvTimeout ->
   replies tr = [] /\ serving tr = [] /\ closes tr = [EvSSHClose])
  /\ (forall err, SFirst sinp = CtxDone err ->
      replies tr' = [] /\ serving tr' = [] /\ closes tr' = [EvSSHClose])
  (* a first request of another type *)
  /\ (forall r, chserver.First inp = RecvReq r -> ReqType r <> "config" ->
      replies tr
      = [EvReply r false
           (Some (ErrorText (Errorf (logger s) "expecting config request" [])))]
      /\ serving tr = [])
  /\ (forall r, SFirst sinp = CtxReq r -> ReqType r <> "config" ->
      replies tr'
      = [EvReply r false
           (Some (ErrorText
                    (DebugErrorf (ProxySSHSession.Logger_ ps)
                       ("Expecting " ++ DQ ++ "config" ++ DQ
                          ++ " request, got " ++ DQ ++ "%s" ++ DQ)
                       [ArgS (ReqType r)])))]
      /\ serving tr' = [] /\ closes tr' = [EvSSHClose])
  (* a payload that does not decode *)
  /\ (forall r e, chserver.First inp = RecvReq r -> ReqType r = "config" ->
      DecodeConfig (Payload r) = inl e ->
      replies tr
      = [EvReply r false
           (Some (ErrorText (Errorf (logger s) "invalid config" [])))]
      /\ serving tr = [])
  /\ (forall r e, SFirst sinp = CtxReq r -> ReqType r = "config" ->
      DecodeConfig (Payload r) = inl e ->
      replies tr'
      = [EvReply r false
           (Some (ErrorText
                    (DebugErrorf (ProxySSHSession.Logger_ ps)
                       "Invalid session config request encoding: %s"
                       [ArgE e])))]
      /\ serving tr' = [] /\ closes tr' = [EvSSHClose]).
Proof.
  intros Hup Hhs Hhs' tr tr'. subst tr tr'.
  rewrite replies_calls, serving_calls, closes_calls.
  rewrite (replies_calls (snd (fst _))), (serving_calls (snd (fst _))),
    (closes_calls (snd (fst _))).
  repeat split.
  all: try (rewrite (ws_timeout _ _ _ _ Hup Hhs) by done; reflexivity).
  all: try (erewrite (run_timeout _ _ _ _ Hhs') by done; reflexivity).
  all: try (rewrite (ws_wrong_type _ _ _ _ Hup Hhs r) by done; reflexivity).
  all: try (rewrite (run_wrong_type _ _ _ _ Hhs' r) by done; reflexivity).
  all: try (rewrite (ws_bad_payload _ _ _ _ Hup Hhs r e) by done; reflexivity).
  all: try (rewrite (run_bad_payload _ _ _ _ Hhs' r e) by done; reflexivity).
Qed.

End ConfigClaims.

Section ConfigClaimsRun.
Import Lab.

Lemma alice_handshake_ws :
  chserver.NewServerConn (set_sessCount (AddInt32 (sessCount srv) 1) srv)
    alice_login = (srv_ws_authed, [], None).
Proof. vm_compute. reflexivity. Qed.

Lemma alice_handshake :
  chserver.NewServerConn srv alice_login = (srv_authed, [], None).
Proof. vm_compute. reflexivity. Qed.

Lemma srv_has_users : size (users srv) <> 0.
Proof. vm_compute. discriminate. Qed.

Lemma session_entry_witness :
  (chserver.UpgradeErr (ws_input (RecvReq (config_req "none")) [open9001])
   = None
   /\ chserver.NewServerConn (set_sessCount (AddInt32 (sessCount srv) 1) srv)
        alice_login = (srv_ws_authed, [], None)
   /\ size (users srv) <> 0
   /\ chserver.NewServerConn srv alice_login = (srv_authed, [], None))
  /\ (is_Some (sessions srv_ws_authed !! "sid-1")
      /\ sessions (fst (chserver.handleWebsocket srv
                          (ws_input (RecvReq (config_req "none")) [open9001])))
         = delete "sid-1" (sessions srv_ws_authed)
      /\ sessions (fst (chserver.handleWebsocket srv
                          (ws_input (RecvReq (config_req "none")) [open9001])))
           !! "sid-1" = None)
  /\ (is_Some (sessions srv_authed !! "sid-1")
      /\ sessions (ProxySSHSession.server
                     (fst (fst (ProxySSHSession.Run session
                                  (session_input (CtxReq (config_req "none"))
                                     [open9001])))))
         = delete "sid-1" (sessions srv_authed)
      /\ sessions (ProxySSHSession.server
                     (fst (fst (ProxySSHSession.Run session
                                  (session_input (CtxReq (config_req "none"))
                                     [open9001])))))
           !! "sid-1" = None).
Proof.
  split.
  - exact (conj eq_refl
             (conj alice_handshake_ws (conj srv_has_users alice_handshake))).
  - exact (session_entry_taken_and_deleted srv
             (ws_input (RecvReq (config_req "none")) [open9001])
             srv_ws_authed [] session
             (session_input (CtxReq (config_req "none")) [open9001])
             srv_authed [] eq_refl alice_handshake_ws srv_has_users
             alice_handshake srv_has_users).
Defined.

(** C3 as the claim words it fails when the ten seconds pass without a
    request: the session ends and no reply, of failure or otherwise, has
    been sent by either handler. *)
Lemma no_reply_on_timeout :
  ~ (exists r payload,
       In (EvReply r false payload)
          (everything (snd (chserver.handleWebsocket srv
                              (ws_input RecvTimeout [])))))
  /\ ~ (exists r payload,
          In (EvReply r false payload)
             (everything
                (snd (fst (ProxySSHSession.Run session
                             (session_input (CtxDone DeadlineExceeded) [])))))).
Proof.
  split; intros (r & payload & H); vm_compute in H;
    repeat (destruct H as [H|H]; [discriminate H|]); exact H.
Qed.

Lemma config_step_failures_witness :
  (chserver.UpgradeErr (ws_input RecvTimeout []) = None
   /\ chserver.NewServerConn (set_sessCount (AddInt32 (sessCount srv) 1) srv)
        alice_login = (srv_ws_authed, [], None)
   /\ chserver.NewServerConn srv alice_login = (srv_authed, [], None))
  /\ (replies (snd (chserver.handleWebsocket srv (ws_input RecvTimeout [])))
      = []
      /\ serving (snd (chserver.handleWebsocket srv (ws_input RecvTimeout [])))
         = []
      /\ closes (snd (chserver.handleWebsocket srv (ws_input RecvTimeout [])))
         = [EvSSHClose]).
Proof.
  split.
  - exact (conj eq_refl (conj alice_handshake_ws alice_handshake)).
  - exact (proj1 (config_step_failures srv (ws_input RecvTimeout [])
                    srv_ws_authed [] session
                    (session_input (CtxDone DeadlineExceeded) [])
                    srv_authed [] eq_refl alice_handshake_ws alice_handshake)
             eq_refl).
Defined.

(** A first request that is not [config], and a [config] request whose
    payload does not decode, are replied to with failure. *)
Example ping_first_refused :
  calls (snd (chserver.handleWebsocket srv
                (ws_input (RecvReq (mkRequest "ping" "")) [open9001])))
  = [EvUpgrade None;
     EvReply (mkRequest "ping" "") false
       (Some (ErrorText (Errorf (NewLogger "server")
                           "expecting config request" [])))].
Proof. vm_compute. reflexivity. Qed.

Example truncated_config_refused :
  calls (snd (fst (ProxySSHSession.Run session
                     (session_input (CtxReq (config_req "garbage"))
                        [open9001]))))
  = [EvGo "r.Reply"
       [EvReply (config_req "garbage") false
          (Some (ErrorText
                   (DebugErrorf (Fork (NewLogger "server") "SSHSession#%d" [1%Z])
                      "Invalid session config request encoding: %s"
                      [ArgE (ErrExternal "unexpected EOF")])))];
     EvCancel; EvSSHClose; EvCloseDone].
Proof. vm_compute. reflexivity. Qed.

End ConfigClaimsRun.

(** ** Where the code departs from what is asked of it *)
Section Departures.
Import Lab.

(** C2.  With reverse tunnelling off and a reverse route in the
    configuration, both handlers reply with failure and start no stub
    listener.  [ProxySSHSession.Run] words the failure [Reverse port
    forwarding not enabled on server] and closes the SSH connection;
    [handleWebsocket] words it [Reverse port forwaring not enabled on
    server] and returns without closing the connection. *)
Theorem reverse_denied_by_both_handlers :
  calls (snd (chserver.handleWebsocket srv
                (ws_input (RecvReq (config_req "R9001")) [open9001])))
  = [EvUpgrade None;
     EvReply (config_req "R9001") false
       (Some (ErrorText
                (Errorf (NewLogger "server")
                   "Reverse port forwaring not enabled on server" [])))]
  /\ calls (snd (fst (ProxySSHSession.Run session
                        (session_input (CtxReq (config_req "R9001"))
                           [open9001]))))
     = [EvGo "r.Reply"
          [EvReply (config_req "R9001") false
             (Some (ErrorText
                      (DebugErrorf
                         (Fork (NewLogger "server") "SSHSession#%d" [1%Z])
                         "Reverse port forwarding not enabled on server" [])))];
        EvCancel; EvSSHClose; EvCloseDone].
Proof. split; vm_compute; reflexivity. Qed.

(** C1.  No regular expression of alice matches the route to port 9002,
    and a configuration that lists this route is refused to her session.
    A configuration that does not list it is accepted, and a channel open
    that carries the skeleton descriptor of the route is then accepted by
    each of the three handlers: none of them looks at the user or at the
    configured routes. *)
Theorem unlisted_route_open_accepted :
  HasAccess alice (ChannelDescriptor_String route9002) = false
  /\ sessions srv_authed !! "sid-1" = Some alice
  /\ calls (snd (chserver.handleWebsocket srv
                   (ws_input (RecvReq (config_req "9002")) [open9002])))
     = [EvUpgrade None;
        EvReply (config_req "9002") false
          (Some (ErrorText (Errorf (NewLogger "server") "access to '%s' denied"
                              [ArgS "tcp:127.0.0.1:9002"])))]
  /\ accepted (snd (chserver.handleWebsocket srv
                      (ws_input (RecvReq (config_req "none")) [open9002])))
     = [EvAccept open9002 None]
  /\ accepted (snd (fst (ProxySSHSession.Run session
                           (session_input (CtxReq (config_req "none"))
                              [open9002]))))
     = [EvAccept open9002 None]
  /\ accepted (fst (SSHSession.handleSSHNewChannel generic open9002))
     = [EvAccept open9002 None].
Proof. repeat split; vm_compute; reflexivity. Qed.

(** C4.  A channel open to a target that refuses the connection: each
    handler first accepts the open, and only then is the target dialled,
    in vain. *)
Theorem accept_precedes_dial :
  calls (fst (ProxySSHSession.handleSSHNewChannel session open9002_refused))
  = [EvAccept open9002_refused None;
     EvGo "ssh.DiscardRequests" [];
     EvDialAndServe skel9002 open9002_refused (0, 0, Some dial_refused)%Z]
  /\ calls (fst (SSHSession.handleSSHNewChannel generic open9002_refused))
     = [EvAccept open9002_refused None;
        EvGo "ssh.DiscardRequests" [];
        EvDialAndServe skel9002 open9002_refused (0, 0, Some dial_refused)%Z]
  /\ calls (chserver.handleSSHChannels srv clog [open9002_refused])
     = [EvAccept open9002_refused None;
        EvGo "ssh.DiscardRequests" [];
        EvConnStats "New";
        EvGo "chshare.HandleTCPStream"
          [EvHandleTCPStream (Fork clog "conn#%d" [1%Z]) open9002_refused
             "127.0.0.1:9002"]].
Proof. repeat split; vm_compute; reflexivity. Qed.

End Departures.

(** * Further properties of the handlers *)

(** ** The loops over control requests *)
Section RequestLoops.
Context `{Ext : Externals}.

Lemma everything_app (a b : list Event) :
  everything (a ++ b) = everything a ++ everything b.
Proof. unfold everything. apply List.flat_map_app. Qed.

Lemma replies_app (a b : list Event) : replies (a ++ b) = replies a ++ replies b.
Proof. unfold replies. by rewrite everything_app, List.filter_app. Qed.

(** X1.  [Server.handleSSHRequests] answers every request it receives,
    once and in the order of arrival: a [ping] with success and no
    payload, a request of any other type with failure and the text
    [Unknown request type: ] followed by the type.  It makes no other
    call. *)
Theorem every_request_answered (clog : Logger) (reqs : list Request) :
  calls (chserver.handleSSHRequests clog reqs)
  = List.map
      (fun r =>
         if String.eqb (ReqType r) "ping" then EvReply r true None
         else EvReply r false
                (Some (Sprintf "Unknown request type: %s" [ArgS (ReqType r)])))
      reqs.
Proof.
  induction reqs as [|r reqs IH]; [done|].
  cbn [chserver.handleSSHRequests List.map]. rewrite calls_app, IH.
  by destruct (String.eqb (ReqType r) "ping").
Qed.

(** X2.  [ProxySSHSession.handleSSHRequests] sends one reply for every
    request of the stream, in the order of arrival, whether or not the
    sending of earlier replies failed: success without payload for a
    [ping], failure with the error [Unknown SSH request type] for any
    other type.  It replies to nothing else, and this does not depend on
    how the stream ends. *)
Theorem session_requests_answered (s : ProxySSHSession.ProxySSHSession)
    (reqs : list (Request * option error)) (fin : option error) :
  replies (ProxySSHSession.handleSSHRequests s reqs fin)
  = List.map
      (fun q =>
         if String.eqb (ReqType (fst q)) "ping" then EvReply (fst q) true None
         else EvReply (fst q) false
                (Some (ErrorText
                         (DebugErrorf (ProxySSHSession.Logger_ s)
                            "Unknown SSH request type: %s"
                            [ArgS (ReqType (fst q))]))))
      reqs.
Proof.
  induction reqs as [|[req res] reqs IH].
  - by destruct fin.
  - cbn [ProxySSHSession.handleSSHRequests List.map fst].
    rewrite replies_app, IH. f_equal.
    destruct (String.eqb (ReqType req) "ping"); by destruct res.
Qed.

End RequestLoops.

(** ** The loop over channel opens *)
Section ChannelLoop.
Context `{Ext : Externals}.

Lemma answered_app (a b : list Event) :
  answered (a ++ b) = answered a ++ answered b.
Proof. unfold answered. apply omap_app. Qed.

Lemma accepted_app (a b : list Event) :
  accepted (a ++ b) = accepted a ++ accepted b.
Proof. unfold accepted. by rewrite everything_app, List.filter_app. Qed.

(** One turn of the loop, by whether the open passes the test. *)
Lemma one_open_turned_down s clog ch :
  admitted s ch = false ->
  answered (chserver.handleSSHChannels s clog [ch]) = [ch]
  /\ accepted (chserver.handleSSHChannels s clog [ch]) = [].
Proof.
  unfold admitted. cbn [chserver.handleSSHChannels].
  destruct (Unmarshal (ExtraData ch)) as [epd|]; [|done].
  destruct (bool_decide (Role epd = ChannelEndpointRoleSkeleton)); [|done].
  destruct (String.eqb (Type_ epd) ChannelEndpointTypeStdio); [done|].
  destruct (String.eqb (Type_ epd) ChannelEndpointTypeLoop); [done|].
  destruct (String.eqb (Type_ epd) ChannelEndpointTypeUnix); [done|].
  destruct (String.eqb (Type_ epd) ChannelEndpointTypeSocks); [|done].
  by destruct (socksServer s).
Qed.

Lemma one_open_admitted s clog ch :
  admitted s ch = true ->
  answered (chserver.handleSSHChannels s clog [ch]) = [ch]
  /\ accepted (chserver.handleSSHChannels s clog [ch])
     = match AcceptErr ch with
       | Some _ => []
       | None => [EvAccept ch None]
       end.
Proof.
  unfold admitted. cbn [chserver.handleSSHChannels].
  destruct (Unmarshal (ExtraData ch)) as [epd|]; [|done].
  destruct (bool_decide (Role epd = ChannelEndpointRoleSkeleton)); [|done].
  destruct (String.eqb (Type_ epd) ChannelEndpointTypeStdio); [done|].
  destruct (String.eqb (Type_ epd) ChannelEndpointTypeLoop); [done|].
  destruct (String.eqb (Type_ epd) ChannelEndpointTypeUnix); [done|].
  destruct (String.eqb (Type_ epd) ChannelEndpointTypeSocks);
    destruct (socksServer s); try done; intros _;
    destruct (AcceptErr ch); try done.
  cbn. by destruct (ServeErr ch) as [e|]; [destruct (HasSuffix e "EOF")|].
Qed.

(** X3.  [Server.handleSSHChannels] answers every inbound channel open
    exactly once, with [Reject] or with [Accept], and in the order in
    which the opens arrive: none is left unanswered, none is answered
    twice. *)
Theorem every_open_answered_once s clog (chans : list NewChannel) :
  answered (chserver.handleSSHChannels s clog chans) = chans.
Proof.
  induction chans as [|ch chans IH]; [done|].
  change (ch :: chans) with ([ch] ++ chans).
  rewrite handleSSHChannels_app, answered_app, IH. f_equal.
  destruct (admitted s ch) eqn:E.
  - by destruct (one_open_admitted s clog ch E).
  - by destruct (one_open_turned_down s clog ch E).
Qed.

(** X4.  The opens [Server.handleSSHChannels] accepts are, in order,
    exactly those whose extra data decodes to a descriptor with role
    Skeleton and a type other than stdio, loop and unix, and other than
    socks unless the server has a SOCKS5 server, and for which
    [ch.Accept()] itself works.  In particular loop and unix skeletons
    are never accepted. *)
Theorem accepted_opens s clog (chans : list NewChannel) :
  accepted (chserver.handleSSHChannels s clog chans)
  = List.map (fun ch => EvAccept ch None)
      (List.filter
         (fun ch =>
            match Unmarshal (ExtraData ch) with
            | None => false
            | Some epd =>
                bool_decide (Role epd = ChannelEndpointRoleSkeleton)
                && negb (String.eqb (Type_ epd) ChannelEndpointTypeStdio)
                && negb (String.eqb (Type_ epd) ChannelEndpointTypeLoop)
                && negb (String.eqb (Type_ epd) ChannelEndpointTypeUnix)
                && (negb (String.eqb (Type_ epd) ChannelEndpointTypeSocks)
                    || socksServer s)
            end
            && match AcceptErr ch with None => true | Some _ => false end)
         chans).
Proof.
  induction chans as [|ch chans IH]; [done|].
  change (ch :: chans) with ([ch] ++ chans).
  rewrite handleSSHChannels_app, accepted_app, IH.
  cbn [app List.filter]. fold (admitted s ch).
  destruct (admitted s ch) eqn:E.
  - destruct (one_open_admitted s clog ch E) as [_ ->].
    by destruct (AcceptErr ch).
  - by destruct (one_open_turned_down s clog ch E) as [_ ->].
Qed.

(** X5.  An open that passes the test and is accepted is served by the
    SOCKS5 server when its type is socks, and in every other case, a type
    the server has never heard of included, by the TCP stream handler on
    the descriptor's path. *)
Theorem accepted_open_served s clog ch epd :
  Unmarshal (ExtraData ch) = Some epd ->
  admitted s ch = true ->
  AcceptErr ch = None ->
  calls (chserver.handleSSHChannels s clog [ch])
  = [EvAccept ch None;
     EvGo "ssh.DiscardRequests" [];
     EvConnStats "New";
     if String.eqb (Type_ epd) ChannelEndpointTypeSocks then
       EvGo "handleSocksStream"
         (chserver.handleSocksStream
            (Fork clog "socksconn#%d" [ConnID ch]) ch)
     else
       EvGo "chshare.HandleTCPStream"
         [EvHandleTCPStream (Fork clog "conn#%d" [ConnID ch]) ch (Path epd)]].
Proof.
  unfold admitted. intros H. rewrite H. intros Ha Hacc.
  cbn [chserver.handleSSHChannels]. rewrite H, Hacc.
  destruct (bool_decide (Role epd = ChannelEndpointRoleSkeleton)); [|done].
  destruct (String.eqb (Type_ epd) ChannelEndpointTypeStdio); [done|].
  destruct (String.eqb (Type_ epd) ChannelEndpointTypeLoop); [done|].
  destruct (String.eqb (Type_ epd) ChannelEndpointTypeUnix); [done|].
  destruct (String.eqb (Type_ epd) ChannelEndpointTypeSocks);
    destruct (socksServer s); try done.
Qed.

End ChannelLoop.

(** ** One channel open in a session *)
Section SessionOpen.
Context `{Ext : Externals}.

(** X6.  [ProxySSHSession.handleSSHNewChannel] never leaves an endpoint
    behind.  When no endpoint could be made nothing is closed or dialled.
    When one was made it meets exactly one end: it is dialled and served
    if the open was accepted and wrapped, and closed otherwise; when the
    wrapping fails the accepted channel is closed as well. *)
Theorem endpoint_closed_or_served (ps : ProxySSHSession.ProxySSHSession) ch :
  let tr := fst (ProxySSHSession.handleSSHNewChannel ps ch) in
  match Unmarshal (ExtraData ch) with
  | None => List.filter is_endpoint_end tr = []
  | Some epd =>
      match NewLocalSkeletonChannelEndpoint (ProxySSHSession.Logger_ ps)
              (ProxySSHSession.env ps) epd with
      | inl _ => List.filter is_endpoint_end tr = []
      | inr ep =>
          match AcceptErr ch, WrapErr ch with
          | None, None =>
              List.filter is_endpoint_end tr
              = [EvDialAndServe ep ch (DialAndServeResult ch)]
          | None, Some _ =>
              List.filter is_endpoint_end tr = [EvEndpointClose ep]
              /\ In (EvChannelClose ch) tr
          | Some _, _ => List.filter is_endpoint_end tr = [EvEndpointClose ep]
          end
      end
  end.
Proof.
  unfold ProxySSHSession.handleSSHNewChannel. cbv zeta.
  destruct (Unmarshal (ExtraData ch)) as [epd|]; [|done].
  destruct (NewLocalSkeletonChannelEndpoint _ _ epd) as [err|ep]; [done|].
  destruct (AcceptErr ch); [done|].
  destruct (WrapErr ch).
  - split; [done|]. cbn. tauto.
  - by destruct (DialAndServeResult ch) as [[a b] [e|]].
Qed.

(** X7.  [ProxySSHSession.handleSSHNewChannel] answers the open exactly
    once and returns nil in one case only: the open was accepted and
    wrapped, and [DialAndServe] returned without error.  A rejection
    returns the error it was sent with, a failed [Accept] or wrapping its
    own error, and a failed service the error of [DialAndServe]. *)
Theorem session_open_result (ps : ProxySSHSession.ProxySSHSession) ch :
  answered (fst (ProxySSHSession.handleSSHNewChannel ps ch)) = [ch]
  /\ snd (ProxySSHSession.handleSSHNewChannel ps ch)
     = match Unmarshal (ExtraData ch) with
       | None =>
           Some (Errorf (logger (ProxySSHSession.server ps))
                   "Badly formatted NewChannel request" [])
       | Some epd =>
           match NewLocalSkeletonChannelEndpoint (ProxySSHSession.Logger_ ps)
                   (ProxySSHSession.env ps) epd with
           | inl err => Some err
           | inr _ =>
               match AcceptErr ch, WrapErr ch with
               | Some err, _ => Some err
               | None, Some err => Some err
               | None, None => snd (DialAndServeResult ch)
               end
           end
       end.
Proof.
  unfold ProxySSHSession.handleSSHNewChannel. cbv zeta.
  destruct (Unmarshal (ExtraData ch)) as [epd|]; [|done].
  destruct (NewLocalSkeletonChannelEndpoint _ _ epd) as [err|ep]; [done|].
  destruct (AcceptErr ch); [done|].
  destruct (WrapErr ch); [done|].
  by destruct (DialAndServeResult ch) as [[a b] [e|]].
Qed.

(** X8.  The generic [SSHSession.handleSSHNewChannel] and
    [ProxySSHSession.handleSSHNewChannel] do the same thing with an open
    whose extra data decodes, call for call, log line for log line and
    with the same result, when the two sessions share the logger and the
    channel environment.  On extra data that does not decode both reject
    with UnknownChannelType; the generic session builds the error with
    its own logger where the other uses the server's. *)
Theorem generic_session_agrees (ps : ProxySSHSession.ProxySSHSession)
    (gs : SSHSession.SSHSession) ch :
  SSHSession.Logger_ gs = ProxySSHSession.Logger_ ps ->
  SSHSession.localChannelEnv gs = ProxySSHSession.env ps ->
  match Unmarshal (ExtraData ch) with
  | Some _ =>
      SSHSession.handleSSHNewChannel gs ch
      = ProxySSHSession.handleSSHNewChannel ps ch
  | None =>
      calls (fst (SSHSession.handleSSHNewChannel gs ch))
      = [EvReject ch UnknownChannelType
           (ErrorText (Errorf (SSHSession.Logger_ gs)
                         "Badly formatted NewChannel request" []))]
      /\ calls (fst (ProxySSHSession.handleSSHNewChannel ps ch))
         = [EvReject ch UnknownChannelType
              (ErrorText (Errorf (logger (ProxySSHSession.server ps))
                            "Badly formatted NewChannel request" []))]
  end.
Proof.
  intros Hl He.
  unfold SSHSession.handleSSHNewChannel, ProxySSHSession.handleSSHNewChannel,
    SSHSession.reject, ProxySSHSession.reject.
  rewrite Hl, He. by destruct (Unmarshal (ExtraData ch)).
Qed.

End SessionOpen.

(** ** A configuration that is accepted *)
Section ConfigAccepted.
Context `{Ext : Externals}.

(** The two loops read little of the server value: the stub loop its
    logger, the channel loop whether there is a SOCKS5 server. *)
Lemma startReverse_logger s s' clog r startErr i cds :
  logger s = logger s' ->
  chserver.startReverse s clog r startErr i cds
  = chserver.startReverse s' clog r startErr i cds.
Proof.
  intros H. revert i. induction cds as [|chd cds IH]; intros i; [done|].
  cbn [chserver.startReverse]. by rewrite H, IH.
Qed.

Lemma handleSSHChannels_socks s s' clog chans :
  socksServer s = socksServer s' ->
  chserver.handleSSHChannels s clog chans
  = chserver.handleSSHChannels s' clog chans.
Proof.
  intros H. induction chans as [|ch chans IH]; [done|].
  cbn [chserver.handleSSHChannels]. by rewrite H, IH.
Qed.

(** The stub loop when every reverse route starts. *)
Lemma startReverse_all_started s clog r startErr i cds :
  Forall (fun p => startErr (fst p) = None) (reverse_routes i cds) ->
  calls (fst (chserver.startReverse s clog r startErr i cds))
  = List.map (fun p => EvProxyStart (fst p) (snd p) None) (reverse_routes i cds)
  /\ snd (chserver.startReverse s clog r startErr i cds) = true.
Proof.
  revert i. induction cds as [|chd cds IH]; intros i H; [done|].
  cbn [chserver.startReverse reverse_routes] in *.
  destruct (Reverse chd).
  - apply Forall_cons in H as [H1 H2]. cbn [fst] in H1. rewrite H1.
    destruct (IH (S i) H2) as [IH1 IH2].
    destruct (chserver.startReverse s clog r startErr (S i) cds) as [tr ok].
    cbn [fst snd] in *. split; [|done].
    rewrite calls_log, calls_keep by done. by rewrite IH1.
  - destruct (IH (S i) H) as [IH1 IH2].
    destruct (chserver.startReverse s clog r startErr (S i) cds) as [tr ok].
    cbn [fst snd] in *. by rewrite calls_log.
Qed.

(** The stub loop when the reverse routes of [pre] start and the route
    after them does not. *)
Lemma startReverse_one_fails s clog r startErr i pre chd post err :
  Forall (fun p => startErr (fst p) = None) (reverse_routes i pre) ->
  Reverse chd = true ->
  startErr (i + length pre) = Some err ->
  calls (fst (chserver.startReverse s clog r startErr i (pre ++ chd :: post)))
  = List.map (fun p => EvProxyStart (fst p) (snd p) None) (reverse_routes i pre)
    ++ [EvProxyStart (i + length pre) chd (Some err);
        EvReply r false (Some (ErrorText (Errorf (logger s) "%s" [ArgE err])))]
  /\ snd (chserver.startReverse s clog r startErr i (pre ++ chd :: post))
     = false.
Proof.
  revert i. induction pre as [|c pre IH]; intros i H Hr He.
  - cbn [app length reverse_routes List.map chserver.startReverse] in *.
    rewrite Nat.add_0_r in *. by rewrite Hr, He.
  - cbn [app length reverse_routes chserver.startReverse] in *.
    replace (i + S (length pre)) with (S i + length pre) in * by lia.
    destruct (Reverse c).
    + apply Forall_cons in H as [H1 H2]. cbn [fst] in H1. rewrite H1.
      destruct (IH (S i) H2 Hr He) as [IH1 IH2].
      destruct (chserver.startReverse s clog r startErr (S i)
                  (pre ++ chd :: post)) as [tr ok].
      cbn [fst snd] in *. split; [|done].
      rewrite calls_log, calls_keep by done. by rewrite IH1.
    + destruct (IH (S i) H Hr He) as [IH1 IH2].
      destruct (chserver.startReverse s clog r startErr (S i)
                  (pre ++ chd :: post)) as [tr ok].
      cbn [fst snd] in *. by rewrite calls_log.
Qed.

Variables (s s1 : Server) (inp : chserver.WsInput) (htr : list Event).
Variables (r : Request) (c : SessionConfigRequest).
Hypothesis Hup : chserver.UpgradeErr inp = None.
Hypothesis Hhs :
  chserver.NewServerConn (set_sessCount (AddInt32 (sessCount s) 1) s)
    (chserver.Peer inp) = (s1, htr, None).
Hypothesis Hfirst : chserver.First inp = RecvReq r.
Hypothesis Htype : ReqType r = "config".
Hypothesis Hdecode : DecodeConfig (Payload r) = inr c.
Hypothesis Hreverse :
  existsb (fun chd => Reverse chd && negb (reverseOk s))
    (ChannelDescriptors c) = false.
Hypothesis Haccess :
  match (if Nat.ltb 0 (size (users s))
         then sessions s1
                !! chserver.SessionID (chserver.Meta (chserver.Peer inp))
         else None)
  with
  | Some u =>
      List.find (fun chd => negb (HasAccess u (ChannelDescriptor_String chd)))
        (ChannelDescriptors c) = None
  | None => True
  end.

(** Past the checks of the configuration step all that is left of
    [handleWebsocket] is the stub loop and what follows it. *)
Lemma ws_checks_passed :
  let clog := Fork (logger s) "session#%d" [AddInt32 (sessCount s) 1] in
  calls (snd (chserver.handleWebsocket s inp))
  = EvUpgrade None
    :: calls (fst (chserver.startReverse s clog r (chserver.ProxyStartErr inp)
                     0 (ChannelDescriptors c)))
    ++ if snd (chserver.startReverse s clog r (chserver.ProxyStartErr inp)
                 0 (ChannelDescriptors c))
       then [EvReply r true None;
             EvGo "handleSSHRequests"
               (chserver.handleSSHRequests clog (chserver.LaterReqs inp));
             EvGo "handleSSHChannels"
               (chserver.handleSSHChannels s clog (chserver.Chans inp));
             EvSSHWait;
             EvCancel]
       else [EvCancel].
Proof.
  intros clog. subst clog.
  pose proof (NewServerConn_same _ _ _ _ _ Hhs) as F.
  cbn [logger users reverseOk socksServer set_sessCount] in F.
  destruct F as (Hlog & Husers & Hrev & Hsocks & Hcalls).
  unfold chserver.handleWebsocket. cbv zeta.
  rewrite Hup, Hhs, Husers, Hfirst, Htype, Hdecode.
  change (String.eqb "config" "config") with true.
  cbn [negb set_sessCount logger].
  destruct (Nat.ltb 0 (size (users s)));
    cbn [reverseOk set_sessions]; rewrite Hrev, Hreverse.
  - destruct (sessions s1 !! _) as [u|].
    + rewrite Haccess.
      rewrite (startReverse_logger (set_sessions _ s1) s _ _ _ _ _ Hlog).
      rewrite (handleSSHChannels_socks (set_sessions _ s1) s _ _ Hsocks).
      destruct (chserver.startReverse s _ r _ 0 _) as [tr4 [|]];
        cbn [fst snd negb];
        destruct (negb (String.eqb (Version c) BuildVersion));
        repeat first
          [ rewrite calls_app | rewrite calls_log | rewrite calls_nil
          | rewrite Hcalls | rewrite calls_keep by reflexivity ];
        cbn [app]; by rewrite ?app_nil_r.
    + rewrite (startReverse_logger (set_sessions _ s1) s _ _ _ _ _ Hlog).
      rewrite (handleSSHChannels_socks (set_sessions _ s1) s _ _ Hsocks).
      destruct (chserver.startReverse s _ r _ 0 _) as [tr4 [|]];
        cbn [fst snd negb];
        destruct (negb (String.eqb (Version c) BuildVersion));
        repeat first
          [ rewrite calls_app | rewrite calls_log | rewrite calls_nil
          | rewrite Hcalls | rewrite calls_keep by reflexivity ];
        cbn [app]; by rewrite ?app_nil_r.
  - rewrite (startReverse_logger _ s _ _ _ _ _ Hlog).
    rewrite (handleSSHChannels_socks _ s _ _ Hsocks).
    destruct (chserver.startReverse s _ r _ 0 _) as [tr4 [|]];
      cbn [fst snd negb];
      destruct (negb (String.eqb (Version c) BuildVersion));
      repeat first
        [ rewrite calls_app | rewrite calls_log | rewrite calls_nil
        | rewrite Hcalls | rewrite calls_keep by reflexivity ];
      cbn [app]; by rewrite ?app_nil_r.
Qed.

(** X9.  When the configuration passes the checks and every stub
    listener starts, [handleWebsocket] starts one listener for each
    reverse route, in the order of the configuration and under the
    route's index in it, and none for a forward route; it then replies
    success, starts the two goroutines that serve the later requests and
    the channel opens, waits for the connection to end and cancels the
    context of the listeners. *)
Theorem config_accepted_serves :
  Forall (fun p => chserver.ProxyStartErr inp (fst p) = None)
    (reverse_routes 0 (ChannelDescriptors c)) ->
  let clog := Fork (logger s) "session#%d" [AddInt32 (sessCount s) 1] in
  calls (snd (chserver.handleWebsocket s inp))
  = EvUpgrade None
    :: List.map (fun p => EvProxyStart (fst p) (snd p) None)
         (reverse_routes 0 (ChannelDescriptors c))
    ++ [EvReply r true None;
        EvGo "handleSSHRequests"
          (chserver.handleSSHRequests clog (chserver.LaterReqs inp));
        EvGo "handleSSHChannels"
          (chserver.handleSSHChannels s clog (chserver.Chans inp));
        EvSSHWait;
        EvCancel].
Proof.
  intros Hall clog. rewrite ws_checks_passed. fold clog.
  destruct (startReverse_all_started s clog r (chserver.ProxyStartErr inp) 0
              (ChannelDescriptors c) Hall) as [-> ->].
  reflexivity.
Qed.

(** X10.  A stub listener that fails to start fails the whole
    configuration: the listeners of the reverse routes before it have
    been started, the request is replied to with failure and the error of
    the listener, no goroutine is started to serve requests or channel
    opens, and the context of the listeners already started is
    cancelled. *)
Theorem stub_failure_fails_config pre chd post err :
  ChannelDescriptors c = pre ++ chd :: post ->
  Forall (fun p => chserver.ProxyStartErr inp (fst p) = None)
    (reverse_routes 0 pre) ->
  Reverse chd = true ->
  chserver.ProxyStartErr inp (length pre) = Some err ->
  calls (snd (chserver.handleWebsocket s inp))
  = EvUpgrade None
    :: List.map (fun p => EvProxyStart (fst p) (snd p) None)
         (reverse_routes 0 pre)
    ++ [EvProxyStart (length pre) chd (Some err);
        EvReply r false (Some (ErrorText (Errorf (logger s) "%s" [ArgE err])));
        EvCancel].
Proof.
  intros Hc Hall Hr He. rewrite ws_checks_passed, Hc.
  destruct (startReverse_one_fails s
              (Fork (logger s) "session#%d" [AddInt32 (sessCount s) 1]) r
              (chserver.ProxyStartErr inp) 0 pre chd post err Hall Hr He)
    as [-> ->].
  cbn [Nat.add]. by rewrite <- List.app_assoc.
Qed.

End ConfigAccepted.

Section FurtherRuns.
Import Lab LabRuns.

Lemma rev_handshake_ws :
  chserver.NewServerConn
    (set_sessCount (AddInt32 (sessCount rev_srv) 1) rev_srv) alice_login
  = (rev_srv_counted, [], None).
Proof. vm_compute. reflexivity. Qed.

Lemma accepted_open_served_witness :
  (@Unmarshal lab_udp (ExtraData open_udp) = Some udp
   /\ @admitted lab_udp udp_srv open_udp = true
   /\ AcceptErr open_udp = None)
  /\ calls (@chserver.handleSSHChannels lab_udp udp_srv clog [open_udp])
     = [EvAccept open_udp None;
        EvGo "ssh.DiscardRequests" [];
        EvConnStats "New";
        EvGo "chshare.HandleTCPStream"
          [EvHandleTCPStream (Fork clog "conn#%d" [1%Z]) open_udp
             "10.0.0.1:53"]].
Proof.
  split.
  - repeat split; reflexivity.
  - exact (@accepted_open_served lab_udp udp_srv clog open_udp udp
             eq_refl eq_refl eq_refl).
Defined.

Lemma generic_session_agrees_witness :
  (SSHSession.Logger_
     (SSHSession.mkSSHSession (ProxySSHSession.Logger_ session) 1
        (ProxySSHSession.env session))
   = ProxySSHSession.Logger_ session
   /\ SSHSession.localChannelEnv
        (SSHSession.mkSSHSession (ProxySSHSession.Logger_ session) 1
           (ProxySSHSession.env session))
      = ProxySSHSession.env session)
  /\ SSHSession.handleSSHNewChannel
       (SSHSession.mkSSHSession (ProxySSHSession.Logger_ session) 1
          (ProxySSHSession.env session)) open9001
     = ProxySSHSession.handleSSHNewChannel session open9001.
Proof.
  split.
  - split; reflexivity.
  - exact (generic_session_agrees session
             (SSHSession.mkSSHSession (ProxySSHSession.Logger_ session) 1
                (ProxySSHSession.env session)) open9001 eq_refl eq_refl).
Defined.

Lemma config_accepted_witness :
  (chserver.NewServerConn
     (set_sessCount (AddInt32 (sessCount rev_srv) 1) rev_srv) alice_login
   = (rev_srv_counted, [], None)
   /\ DecodeConfig (Payload (config_req "R9001"))
      = inr (mkConfig "1.0" [reverse9001])
   /\ Forall (fun p => chserver.ProxyStartErr (reverse_input None) (fst p) = None)
        (reverse_routes 0 [reverse9001]))
  /\ calls (snd (chserver.handleWebsocket rev_srv (reverse_input None)))
     = [EvUpgrade None;
        EvProxyStart 0 reverse9001 None;
        EvReply (config_req "R9001") true None;
        EvGo "handleSSHRequests"
          (chserver.handleSSHRequests clog [mkRequest "ping" ""]);
        EvGo "handleSSHChannels"
          (chserver.handleSSHChannels rev_srv clog [open9001]);
        EvSSHWait;
        EvCancel].
Proof.
  assert (Hall : Forall (fun p => chserver.ProxyStartErr (reverse_input None)
                                    (fst p) = None)
                   (reverse_routes 0 [reverse9001])).
  { repeat constructor. }
  split.
  - exact (conj rev_handshake_ws (conj eq_refl Hall)).
  - exact (config_accepted_serves rev_srv rev_srv_counted (reverse_input None)
             [] (config_req "R9001") (mkConfig "1.0" [reverse9001])
             eq_refl rev_handshake_ws eq_refl eq_refl eq_refl eq_refl I Hall).
Defined.

Lemma stub_failure_witness :
  (chserver.NewServerConn
     (set_sessCount (AddInt32 (sessCount rev_srv) 1) rev_srv) alice_login
   = (rev_srv_counted, [], None)
   /\ Reverse reverse9001 = true
   /\ chserver.ProxyStartErr (reverse_input (Some bind_failed)) 0
      = Some bind_failed)
  /\ calls (snd (chserver.handleWebsocket rev_srv
                   (reverse_input (Some bind_failed))))
     = [EvUpgrade None;
        EvProxyStart 0 reverse9001 (Some bind_failed);
        EvReply (config_req "R9001") false
          (Some (ErrorText (Errorf (NewLogger "server") "%s"
                              [ArgE bind_failed])));
        EvCancel].
Proof.
  split.
  - exact (conj rev_handshake_ws (conj eq_refl eq_refl)).
  - exact (stub_failure_fails_config rev_srv rev_srv_counted
             (reverse_input (Some bind_failed)) [] (config_req "R9001")
             (mkConfig "1.0" [reverse9001])
             eq_refl rev_handshake_ws eq_refl eq_refl eq_refl eq_refl I
             [] reverse9001 [] bind_failed eq_refl (List.Forall_nil _) eq_refl
             eq_refl).
Defined.

End FurtherRuns.

(** ** Users added and deleted while the server runs *)
Section UserIndex.
Context `{Ext : Externals} `{Setup : !SetupExternals}.

Lemma compileAddrs_fails acc pre addr post err :
  Forall (fun a => exists r, Compile a = inr r) pre ->
  Compile addr = inl err ->
  chserver_setup.compileAddrs acc (pre ++ addr :: post) = inl err.
Proof.
  revert acc. induction pre as [|a pre IH]; intros acc H He.
  - cbn. by rewrite He.
  - apply Forall_cons in H as [[r Hr] H]. cbn. rewrite Hr. by apply IH.
Qed.


(** X11.  [AddUser] adds a user or nothing: when one of the address
    patterns does not compile it returns the error of the first such
    pattern and leaves the server value, the user index included, as it
    was, whatever patterns come before or after. *)
Theorem AddUser_bad_pattern s user pass pre addr post err :
  Forall (fun a => exists r, Compile a = inr r) pre ->
  Compile addr = inl err ->
  chserver_setup.AddUser s user pass (pre ++ addr :: post) = (s, Some err).
Proof.
  intros H He. unfold chserver_setup.AddUser.
  by rewrite (compileAddrs_fails [] pre addr post err H He).
Qed.


(** X13.  After [DeleteUser] the deleted name cannot log in as long as
    the index still holds a user; but when the deleted user was the last
    one, the password callback accepts every login from then on, under
    any name and with any password. *)
Theorem DeleteUser_then_login s user :
  let s' := chserver_setup.DeleteUser s user in
  if Nat.eqb (size (users s')) 0 then
    forall c password, chserver.authUser s' c password = (s', [], None)
  else
    forall sid password,
      snd (chserver.authUser s' (chserver.mkConnMetadata user sid) password)
      = Some (ErrorsNew "Invalid authentication for username: %s").
Proof.
  intros s'. destruct (Nat.eqb (size (users s')) 0) eqn:E.
  - intros c password. rewrite authUser_cases. by rewrite E.
  - intros sid password. rewrite authUser_cases. rewrite E.
    subst s'. cbn [users chserver_setup.DeleteUser chserver_setup.set_users
                   chserver.ConnUser].
    by rewrite lookup_delete_eq.
Qed.

End UserIndex.

Section UserIndexRun.
Import Lab LabSetup.

Lemma AddUser_bad_pattern_witness :
  (Forall (fun a => exists r, Compile a = inr r) ["^tcp:.*:9001$"]
   /\ Compile "(" = inl (ErrExternal "error parsing regexp"))
  /\ chserver_setup.AddUser srv "carol" "pw" (["^tcp:.*:9001$"] ++ "(" :: [".*"])
     = (srv, Some (ErrExternal "error parsing regexp")).
Proof.
  assert (H : Forall (fun a => exists r, Compile a = inr r) ["^tcp:.*:9001$"]).
  { repeat constructor. by exists re9001. }
  exact (conj (conj H eq_refl)
           (AddUser_bad_pattern srv "carol" "pw" ["^tcp:.*:9001$"] "(" [".*"]
              (ErrExternal "error parsing regexp") H eq_refl)).
Defined.


(** Deleting the only user of the server opens it to everyone. *)
Example last_user_deleted :
  users (chserver_setup.DeleteUser srv "alice") = ∅
  /\ snd (chserver.authUser (chserver_setup.DeleteUser srv "alice")
            (chserver.mkConnMetadata "mallory" "sid-2") "guess") = None.
Proof. split; vm_compute; reflexivity. Qed.

End UserIndexRun.

(** ** Session numbers *)
Section SessionNumbers.
Context `{Ext : Externals}.

Lemma AddInt32_one (n : Z) :
  (- 2 ^ 31 <= n <= 2 ^ 31 - 1)%Z ->
  AddInt32 n 1 = if Z.eqb n (2 ^ 31 - 1) then (- 2 ^ 31)%Z else (n + 1)%Z.
Proof.
  intros H. unfold AddInt32, wrap32.
  destruct (Z.eqb_spec n (2 ^ 31 - 1)) as [->|Hne]; [reflexivity|].
  rewrite Z.mod_small by lia. lia.
Qed.

(** X14.  [NewServerSSHSession] numbers the sessions one after the other:
    the new session gets the last number plus one, the counter is left
    at that number, and the session's logger is forked from the server's
    under that number.  The numbers stay within 32 bits: after number
    2^31-1 comes -2^31. *)
Theorem session_numbers_count_up (last : Z) (srv : Server) :
  (- 2 ^ 31 <= last <= 2 ^ 31 - 1)%Z ->
  let id := if Z.eqb last (2 ^ 31 - 1) then (- 2 ^ 31)%Z else (last + 1)%Z in
  ProxySSHSession.NewServerSSHSession last srv
  = (ProxySSHSession.mkProxySSHSession
       (Fork (logger srv) "SSHSession#%d" [id]) srv id, id)
  /\ (- 2 ^ 31 <= id <= 2 ^ 31 - 1)%Z.
Proof.
  intros H id. unfold ProxySSHSession.NewServerSSHSession,
    ProxySSHSession.AllocSSHSessionID.
  rewrite (AddInt32_one last H). fold id. split; [reflexivity|].
  subst id. destruct (Z.eqb_spec last (2 ^ 31 - 1)); lia.
Qed.

End SessionNumbers.

Section SessionNumbersRun.
Import Lab.

Lemma session_numbers_witness :
  (- 2 ^ 31 <= 2 ^ 31 - 1 <= 2 ^ 31 - 1)%Z
  /\ ProxySSHSession.NewServerSSHSession (2 ^ 31 - 1) srv
     = (ProxySSHSession.mkProxySSHSession
          (Fork (logger srv) "SSHSession#%d" [(- 2 ^ 31)%Z]) srv (- 2 ^ 31),
        (- 2 ^ 31)%Z).
Proof.
  assert (H : (- 2 ^ 31 <= 2 ^ 31 - 1 <= 2 ^ 31 - 1)%Z) by lia.
  exact (conj H (proj1 (session_numbers_count_up (2 ^ 31 - 1) srv H))).
Defined.

End SessionNumbersRun.

(** ** Building the server *)
Section Building.
Context `{Ext : Externals} `{Setup : !SetupExternals}.

(** What a server that [NewServer] returns looks like, by the steps
    [NewServer] went through. *)
Lemma NewServer_built config s fingerprint tr :
  chserver_setup.NewServer config = (chserver_setup.Built s fingerprint, tr) ->
  exists index proxy,
    (if negb (String.eqb (chserver_setup.AuthFile config) "")
     then LoadUsers (chserver_setup.AuthFile config) ∅ else inr ∅)
    = inr index
    /\ (proxy = None <-> chserver_setup.Proxy config = "")
    /\ s = mkServer (NewLogger "server")
             (if negb (String.eqb (chserver_setup.Auth config) "") then
                if negb (String.eqb
                           (fst (ParseAuth (chserver_setup.Auth config))) "")
                then <[fst (ParseAuth (chserver_setup.Auth config)) :=
                         mkUser (fst (ParseAuth (chserver_setup.Auth config)))
                           (snd (ParseAuth (chserver_setup.Auth config)))
                           [UserAllowAll]]> index
                else index
              else index)
             ∅ 0 proxy (chserver_setup.Socks5 config)
             (negb (chserver_setup.NoLoop config))
             (chserver_setup.Reverse config).
Proof.
  unfold chserver_setup.NewServer. cbv zeta.
  destruct (if negb (String.eqb (chserver_setup.AuthFile config) "")
            then _ else _) as [e|index]; [done|].
  destruct (KeyFingerprint _); [|done].
  destruct (String.eqb_spec (chserver_setup.Proxy config) "") as [Hp|Hp];
    cbn [negb].
  - destruct (if chserver_setup.Socks5 config then _ else _); [done|].
    destruct (if chserver_setup.NoLoop config then _ else _); [done|].
    intros [= <- _ _]. exists index, None. split; [done|]. split; [done|].
    by destruct (ParseAuth _).
  - destruct (url_Parse _) as [e|u]; [done|].
    destruct (String.eqb (Host u) ""); [done|].
    destruct (if chserver_setup.Socks5 config then _ else _); [done|].
    destruct (if chserver_setup.NoLoop config then _ else _); [done|].
    intros [= <- _ _]. exists index, (Some (URLText u)).
    split; [done|]. split; [done|]. by destruct (ParseAuth _).
Qed.

(** X15.  A server that [NewServer] returns has its features as the
    configuration asks: reverse tunnelling is allowed exactly when
    [Reverse] is set, there is a SOCKS5 server exactly when [Socks5] is
    set, a loop server exactly when [NoLoop] is not set, a reverse HTTP
    proxy exactly when [Proxy] is not empty; no session is counted yet
    and the session map is empty. *)
Theorem NewServer_features config s fingerprint tr :
  chserver_setup.NewServer config = (chserver_setup.Built s fingerprint, tr) ->
  reverseOk s = chserver_setup.Reverse config
  /\ socksServer s = chserver_setup.Socks5 config
  /\ loopServer s = negb (chserver_setup.NoLoop config)
  /\ (reverseProxy s = None <-> chserver_setup.Proxy config = "")
  /\ sessCount s = 0%Z
  /\ sessions s = ∅.
Proof.
  intros H. destruct (NewServer_built _ _ _ _ H) as (index & proxy & _ & Hp & ->).
  by cbn.
Qed.

(** X16.  A server started without an auth file checks passwords only if
    [Auth] names a user: when [Auth] is empty, or [ParseAuth] finds no
    name in it, the server comes up with authentication off and its
    password callback accepts every login; otherwise the callback accepts
    the name of [Auth] with the password of [Auth] and with no other. *)
Theorem NewServer_auth config s fingerprint tr :
  chserver_setup.NewServer config = (chserver_setup.Built s fingerprint, tr) ->
  chserver_setup.AuthFile config = "" ->
  let name := fst (ParseAuth (chserver_setup.Auth config)) in
  let pass := snd (ParseAuth (chserver_setup.Auth config)) in
  if String.eqb (chserver_setup.Auth config) "" || String.eqb name "" then
    forall c password, chserver.authUser s c password = (s, [], None)
  else
    forall sid password,
      snd (chserver.authUser s (chserver.mkConnMetadata name sid) password)
      = None <-> password = pass.
Proof.
  intros H Hf name pass.
  destruct (NewServer_built _ _ _ _ H) as (index & proxy & Hi & _ & ->).
  rewrite Hf in Hi. cbn in Hi. injection Hi as <-.
  fold name pass.
  destruct (String.eqb (chserver_setup.Auth config) ""); cbn [negb orb].
  { intros c password. by rewrite authUser_cases. }
  destruct (String.eqb name ""); cbn [negb].
  { intros c password. by rewrite authUser_cases. }
  intros sid password. rewrite authUser_cases.
  cbn [users chserver.ConnUser].
  assert (Nat.eqb (size (<[name := mkUser name pass [UserAllowAll]]>
                           (∅ : gmap string User))) 0 = false) as ->.
  { apply Nat.eqb_neq. intros E. apply map_size_empty_iff in E.
    by apply insert_non_empty in E. }
  rewrite lookup_insert_eq. cbn [Pass].
  destruct (String.eqb_spec pass password); cbn [snd]; split; congruence.
Qed.

(** X17.  [NewServer] refuses a proxy address in which [url.Parse] finds
    no host: it returns the error [Missing protocol] with the address,
    and nothing of the server has been announced by then. *)
Theorem NewServer_proxy_without_host config fingerprint u :
  chserver_setup.AuthFile config = "" ->
  KeyFingerprint (chserver_setup.KeySeed config) = Some fingerprint ->
  chserver_setup.Proxy config <> "" ->
  url_Parse (chserver_setup.Proxy config) = inr u ->
  Host u = "" ->
  chserver_setup.NewServer config
  = (chserver_setup.Failed
       (Errorf (NewLogger "server") "Missing protocol (%s)" [ArgS (URLText u)]),
     []).
Proof.
  intros Hf Hk Hp Hu Hh. unfold chserver_setup.NewServer. cbv zeta.
  rewrite Hf, Hk, Hu, Hh. cbn.
  by destruct (String.eqb_spec (chserver_setup.Proxy config) "").
Qed.

End Building.

Section BuildingRun.
Import Lab LabSetup.

Lemma bob_server_built :
  chserver_setup.NewServer bob_config
  = (chserver_setup.Built bob_srv "fingerprint of seed", []).
Proof. vm_compute. reflexivity. Qed.

Lemma NewServer_features_witness :
  chserver_setup.NewServer bob_config
  = (chserver_setup.Built bob_srv "fingerprint of seed", [])
  /\ reverseOk bob_srv = chserver_setup.Reverse bob_config
  /\ socksServer bob_srv = chserver_setup.Socks5 bob_config
  /\ loopServer bob_srv = negb (chserver_setup.NoLoop bob_config)
  /\ (reverseProxy bob_srv = None <-> chserver_setup.Proxy bob_config = "")
  /\ sessCount bob_srv = 0%Z
  /\ sessions bob_srv = ∅.
Proof.
  exact (conj bob_server_built
           (NewServer_features bob_config bob_srv "fingerprint of seed" []
              bob_server_built)).
Defined.

Lemma NewServer_auth_witness :
  (chserver_setup.NewServer bob_config
   = (chserver_setup.Built bob_srv "fingerprint of seed", [])
   /\ chserver_setup.AuthFile bob_config = "")
  /\ (snd (chserver.authUser bob_srv (chserver.mkConnMetadata "bob" "sid-9")
             "hunter2") = None
      <-> "hunter2" = "hunter2").
Proof.
  exact (conj (conj bob_server_built eq_refl)
           (NewServer_auth bob_config bob_srv "fingerprint of seed" []
              bob_server_built eq_refl "sid-9" "hunter2")).
Defined.

Lemma NewServer_proxy_witness :
  (chserver_setup.AuthFile
     (chserver_setup.mkConfig "seed" "" "" "backend" false false false false)
   = ""
   /\ KeyFingerprint "seed" = Some "fingerprint of seed"
   /\ "backend" <> ""
   /\ url_Parse "backend" = inr (mkURL "" "" "backend"))
  /\ chserver_setup.NewServer
       (chserver_setup.mkConfig "seed" "" "" "backend" false false false false)
     = (chserver_setup.Failed
          (Errorf (NewLogger "server") "Missing protocol (%s)"
             [ArgS "backend"]), []).
Proof.
  assert (Hne : "backend" <> "") by discriminate.
  exact (conj (conj eq_refl (conj eq_refl (conj Hne eq_refl)))
           (NewServer_proxy_without_host
              (chserver_setup.mkConfig "seed" "" "" "backend" false false
                 false false)
              "fingerprint of seed" (mkURL "" "" "backend")
              eq_refl eq_refl Hne eq_refl eq_refl)).
Defined.

(** A server started with [--auth] holding no name comes up open. *)
Example auth_without_name_is_open :
  fst (chserver_setup.NewServer
         (chserver_setup.mkConfig "seed" "" ":hunter2" "" false false false
            false))
  = chserver_setup.Built open_srv "fingerprint of seed".
Proof. vm_compute. reflexivity. Qed.

End BuildingRun.
